(** * FAN5345 single-wire backlight driver: model of fan5345_bl.c

    The driver keeps a software belief [cur_level] of the dimmer's internal
    step counter and reaches an absolute brightness by emitting relative
    step-down pulses on one GPIO line.  The functions below follow
    [src/fan5345/fan5345_bl.c] statement by statement; the GPIO writes and
    the delays are collected in an output trace. *)

From Stdlib Require Import ZArith List Bool Lia String.
Import ListNotations.
Local Open Scope Z_scope.

(** ** Machine integers *)

Module CInt.

Definition int_min : Z := - 2 ^ 31.
Definition int_max : Z := 2 ^ 31 - 1.
Definition uint_max : Z := 2 ^ 32 - 1.

(** Two's-complement reduction of a mathematical integer to [int]
    (the kernel is built with wrapping signed arithmetic). *)
Definition wrap_int (z : Z) : Z := (z + 2 ^ 31) mod 2 ^ 32 - 2 ^ 31.

Definition in_int (z : Z) : Prop := int_min <= z <= int_max.

End CInt.
Export CInt.

(** ** Constants of the driver (lines 31-35) and of the kernel headers *)

Definition NUM_STEPS : Z := 32.
Definition START_STEP : Z := 32.
Definition MIN_STEP : Z := 1.

(** [#define DIR(x) (x--)] on an [int] lvalue: the stored value afterwards. *)
Definition DIR (x : Z) : Z := wrap_int (x - 1).

(** From linux/backlight.h and linux/fb.h, which the file includes. *)
Definition BL_CORE_SUSPENDRESUME : Z := 1.
Definition BL_CORE_FBBLANK : Z := 2.
Definition FB_BLANK_UNBLANK : Z := 0.
Definition ENOMEM : Z := 12.

Inductive backlight_type : Type :=
  | BACKLIGHT_UNSET
  | BACKLIGHT_RAW
  | BACKLIGHT_PLATFORM
  | BACKLIGHT_FIRMWARE.

(** ** Data *)

Record backlight_properties : Type := mk_props {
  brightness : Z;
  max_brightness : Z;
  power : Z;
  bl_type : backlight_type;
  state : Z
}.

(** [struct fan5345_backlight]; the GPIO descriptor is represented by the
    trace of operations performed on it. *)
Record fan5345_backlight : Type := mk_fanbl {
  cur_level : Z
}.

Record backlight_device : Type := mk_bl {
  props : backlight_properties;
  bl_data : fan5345_backlight
}.

Definition bl_get_data (bl : backlight_device) : fan5345_backlight := bl_data bl.

Definition with_cur_level (l : Z) (bl : backlight_device) : backlight_device :=
  {| props := props bl; bl_data := {| cur_level := l |} |}.

Definition with_brightness (b : Z) (bl : backlight_device) : backlight_device :=
  {| props := {| brightness := b;
                 max_brightness := max_brightness (props bl);
                 power := power (props bl);
                 bl_type := bl_type (props bl);
                 state := state (props bl) |};
     bl_data := bl_data bl |}.

Definition with_power (p : Z) (bl : backlight_device) : backlight_device :=
  {| props := {| brightness := brightness (props bl);
                 max_brightness := max_brightness (props bl);
                 power := p;
                 bl_type := bl_type (props bl);
                 state := state (props bl) |};
     bl_data := bl_data bl |}.

Definition with_state (s : Z) (bl : backlight_device) : backlight_device :=
  {| props := {| brightness := brightness (props bl);
                 max_brightness := max_brightness (props bl);
                 power := power (props bl);
                 bl_type := bl_type (props bl);
                 state := s |};
     bl_data := bl_data bl |}.

(** What the driver does to the outside world: writes to the level GPIO
    and blocking delays, in program order. *)
Inductive gpio_event : Type :=
  | GpioSet (value : bool)
  | Ndelay (ns : Z)
  | Mdelay (ms : Z).

(** ** The driver monad: device state, output trace, and [None] when a loop
    has not finished within the iterations it was allowed. *)

Definition drv (A : Type) : Type :=
  backlight_device -> option (A * backlight_device * list gpio_event).

Definition ret {A} (a : A) : drv A := fun bl => Some (a, bl, []).

Definition bind {A B} (m : drv A) (f : A -> drv B) : drv B :=
  fun bl =>
    match m bl with
    | None => None
    | Some (a, bl1, tr1) =>
        match f a bl1 with
        | None => None
        | Some (b, bl2, tr2) => Some (b, bl2, tr1 ++ tr2)
        end
    end.

Definition diverge {A} : drv A := fun _ => None.

Notation "x <- m ;; k" := (bind m (fun x => k))
  (at level 61, m at next level, right associativity).
Notation "m ;;; k" := (bind m (fun _ => k))
  (at level 61, right associativity).

Definition gpiod_set_value_cansleep (value : bool) : drv unit :=
  fun bl => Some (tt, bl, [GpioSet value]).
Definition ndelay (ns : Z) : drv unit := fun bl => Some (tt, bl, [Ndelay ns]).
Definition mdelay (ms : Z) : drv unit := fun bl => Some (tt, bl, [Mdelay ms]).

Definition load_cur_level : drv Z :=
  fun bl => Some (cur_level (bl_get_data bl), bl, []).
Definition store_cur_level (l : Z) : drv unit :=
  fun bl => Some (tt, with_cur_level l bl, []).
Definition load_brightness : drv Z :=
  fun bl => Some (brightness (props bl), bl, []).
Definition store_brightness (b : Z) : drv unit :=
  fun bl => Some (tt, with_brightness b bl, []).
Definition store_power (p : Z) : drv unit :=
  fun bl => Some (tt, with_power p bl, []).
Definition load_state : drv Z :=
  fun bl => Some (state (props bl), bl, []).
Definition store_state (s : Z) : drv unit :=
  fun bl => Some (tt, with_state s bl, []).

(** [while (cond) body], allowed at most [fuel] executions of [body]. *)
Fixpoint while (fuel : nat) (cond : drv bool) (body : drv unit) : drv unit :=
  c <- cond ;;
  if c then
    match fuel with
    | O => diverge
    | S fuel' => body ;;; while fuel' cond body
    end
  else ret tt.

(** ** The driver (lines 43-83) *)

Definition fan5345_disable : drv unit :=
  store_cur_level 0 ;;;
  gpiod_set_value_cansleep false ;;;
  mdelay 1.

(** Loop condition of line 61. *)
Definition level_differs : drv bool :=
  l <- load_cur_level ;;
  b <- load_brightness ;;
  ret (negb (l =? b)).

(** Loop body of lines 62-74. *)
Definition pulse_step : drv unit :=
  gpiod_set_value_cansleep false ;;;
  ndelay 500 ;;;
  gpiod_set_value_cansleep true ;;;
  ndelay 500 ;;;
  l <- load_cur_level ;;
  store_cur_level (DIR l) ;;;
  l' <- load_cur_level ;;
  if l' <=? 0 then store_cur_level NUM_STEPS else ret tt.

Definition fan5345_set_level (fuel : nat) : drv Z :=
  b <- load_brightness ;;
  (if b <? MIN_STEP then fan5345_disable else ret tt) ;;;
  while fuel level_differs pulse_step ;;;
  ret 0.

Definition fan5345_get_level (bl : backlight_device) : Z :=
  brightness (props bl).

(** [struct backlight_ops] and the driver's table (lines 85-89). *)
Record backlight_ops : Type := mk_ops {
  options : Z;
  get_brightness : backlight_device -> Z;
  update_status : nat -> drv Z
}.

Definition fan5345bl_ops : backlight_ops :=
  {| options := BL_CORE_SUSPENDRESUME;
     get_brightness := fan5345_get_level;
     update_status := fan5345_set_level |}.

(** The host's dispatch [backlight_update_status(bl)]: calls the
    [update_status] operation registered for the device. *)
Definition backlight_update_status (ops : backlight_ops) (fuel : nat) : drv Z :=
  update_status ops fuel.

(** A brightness request as the driver issues it itself (lines 150-151 and
    167-168): store the target in [props.brightness], then update. *)
Definition apply (fuel : nat) (target : Z) : drv Z :=
  store_brightness target ;;;
  backlight_update_status fan5345bl_ops fuel.

Fixpoint apply_all (fuel : nat) (targets : list Z) : drv unit :=
  match targets with
  | [] => ret tt
  | t :: rest => apply fuel t ;;; apply_all fuel rest
  end.

(** ** Attach and detach (lines 98-174) *)

Inductive log_level : Type := KERN_ERR | KERN_INFO.

Record log_entry : Type := mk_log {
  log_lvl : log_level;
  log_fmt : string;
  log_args : list Z
}.

Definition dev_err (fmt : string) (args : list Z) : log_entry :=
  {| log_lvl := KERN_ERR; log_fmt := fmt; log_args := args |}.
Definition dev_info (fmt : string) (args : list Z) : log_entry :=
  {| log_lvl := KERN_INFO; log_fmt := fmt; log_args := args |}.

(** A kernel pointer result: a valid object or [ERR_PTR(err)]. *)
Inductive err_ptr : Type :=
  | ValidPtr
  | ErrPtr (err : Z).

(** What the host answers to the calls probe makes, in call order.
    [of_property_read_u32] gives its return code and the [u32] it stored. *)
Record probe_env : Type := mk_env {
  devm_kzalloc_ok : bool;
  devm_gpiod_get : err_ptr;
  of_property_read_u32 : Z * Z;
  devm_backlight_device_register : err_ptr
}.

Record probe_result : Type := mk_probe_result {
  probe_rc : Z;
  probe_registered : option backlight_device;
  probe_log : list log_entry;
  probe_gpio : list gpio_event
}.

Definition msg_gpio : string := "failed to request GPIO: %d\n".
Definition msg_parse : string := "Can't parse the level property\n".
Definition msg_range : string :=
  "FAN5345 level of %d is out of range. Setting to %d.\n".
Definition msg_register : string := "failed to register backlight\n".
Definition msg_init : string := "Driver Initialized.\n".
Definition msg_unload : string := "Driver Unloaded.\n".

(** Lines 149-154, run on the freshly registered device. *)
Definition probe_default (fuel : nat) (def_level : Z) : drv Z :=
  store_brightness (wrap_int def_level) ;;;
  err <- backlight_update_status fan5345bl_ops fuel ;;
  s <- load_state ;;
  store_state (Z.land s (Z.lnot BL_CORE_FBBLANK)) ;;;
  store_power FB_BLANK_UNBLANK ;;;
  ret err.

Definition fan5345_probe (fuel : nat) (env : probe_env) : option probe_result :=
  if negb (devm_kzalloc_ok env) then
    Some (mk_probe_result (- ENOMEM) None [] [])
  else
    match devm_gpiod_get env with
    | ErrPtr err => Some (mk_probe_result err None [dev_err msg_gpio [err]] [])
    | ValidPtr =>
        let '(err, def_level) := of_property_read_u32 env in
        if negb (err =? 0) then
          Some (mk_probe_result err None [dev_err msg_parse []] [])
        else
          let clamp := def_level >? NUM_STEPS in
          let log1 :=
            if clamp then [dev_info msg_range [def_level; NUM_STEPS]] else [] in
          let def_level := if clamp then NUM_STEPS else def_level in
          let props0 :=
            {| brightness := 0; max_brightness := NUM_STEPS; power := 0;
               bl_type := BACKLIGHT_RAW; state := 0 |} in
          let fanbl := {| cur_level := 0 |} in
          match devm_backlight_device_register env with
          | ErrPtr e =>
              Some (mk_probe_result e None (log1 ++ [dev_err msg_register []]) [])
          | ValidPtr =>
              let bl := {| props := props0; bl_data := fanbl |} in
              if negb (def_level =? 0) then
                match probe_default fuel def_level bl with
                | None => None
                | Some (err, bl', tr) =>
                    Some (mk_probe_result err (Some bl')
                            (log1 ++ if err =? 0 then [dev_info msg_init []] else [])
                            tr)
                end
              else
                Some (mk_probe_result err (Some bl)
                        (log1 ++ if err =? 0 then [dev_info msg_init []] else [])
                        [])
          end
    end.

Definition fan5345_remove (fuel : nat) : drv (Z * list log_entry) :=
  store_power 0 ;;;
  store_brightness 0 ;;;
  err <- backlight_update_status fan5345bl_ops fuel ;;
  ret (0, if err =? 0 then [dev_info msg_unload []] else []).

(** ** Reading the trace as commands to the dimmer

    A step-down pulse is low, at least 500 ns, high, at least 500 ns; a
    shutdown is low held for at least 1 ms. *)

Inductive ic_cmd : Type := StepDown | Shutdown.

Definition pulse_seq : list gpio_event :=
  [GpioSet false; Ndelay 500; GpioSet true; Ndelay 500].
Definition shutdown_seq : list gpio_event :=
  [GpioSet false; Mdelay 1].

Fixpoint pulse_train (n : nat) : list gpio_event :=
  match n with
  | O => []
  | S n' => pulse_seq ++ pulse_train n'
  end.

Definition cons_cmd (c : ic_cmd) (r : option (list ic_cmd)) : option (list ic_cmd) :=
  match r with
  | Some cs => Some (c :: cs)
  | None => None
  end.

Fixpoint ic_decode (tr : list gpio_event) : option (list ic_cmd) :=
  match tr with
  | [] => Some []
  | GpioSet false :: Mdelay ms :: rest =>
      if 1 <=? ms then cons_cmd Shutdown (ic_decode rest) else None
  | GpioSet false :: Ndelay lo :: GpioSet true :: Ndelay hi :: rest =>
      if (500 <=? lo) && (500 <=? hi)
      then cons_cmd StepDown (ic_decode rest) else None
  | _ => None
  end.

Definition is_step_down (c : ic_cmd) : bool :=
  match c with StepDown => true | Shutdown => false end.

(** Number of step-down pulses in a trace; [None] for a trace that is not
    a sequence of pulses and shutdowns. *)
Definition pulses (tr : list gpio_event) : option nat :=
  match ic_decode tr with
  | Some cs => Some (List.length (filter is_step_down cs))
  | None => None
  end.

(** The Level Tracker of the specification (section 4.1), in its words. *)
Module Spec.

Definition MAX_STEP : Z := 32.

Definition decrement_with_wrap (believed_level : Z) : Z :=
  let r := believed_level - 1 in
  if r <=? 0 then MAX_STEP else r.

Definition reset_to_off : Z := 0.

Definition track (believed_level : Z) (c : ic_cmd) : Z :=
  match c with
  | StepDown => decrement_with_wrap believed_level
  | Shutdown => reset_to_off
  end.

Definition replay (believed_level : Z) (cs : list ic_cmd) : Z :=
  fold_left track cs believed_level.

End Spec.

(** ** Derived forms used in the proofs *)

(** Effect of one execution of the loop body on [cur_level]
    (lines 70-74). *)
Definition next_level (l : Z) : Z :=
  let l' := DIR l in
  if l' <=? 0 then NUM_STEPS else l'.

(** Number of loop iterations from level [l] to target [t]. *)
Definition pulses_needed (l t : Z) : Z :=
  if l =? t then 0
  else if t <? l then l - t
  else (if l =? 0 then 1 else l) + NUM_STEPS - t.

Definition prepend {A} (tr0 : list gpio_event)
  (r : option (A * backlight_device * list gpio_event))
  : option (A * backlight_device * list gpio_event) :=
  match r with
  | Some (a, bl, tr) => Some (a, bl, tr0 ++ tr)
  | None => None
  end.

Definition pulse_loop (fuel : nat) : drv unit :=
  while fuel level_differs pulse_step.

(** The tracker invariant: the believed level is a legal level. *)
Definition level_ok (bl : backlight_device) : Prop :=
  0 <= cur_level (bl_data bl) <= NUM_STEPS.

(** State of the device right after registration in probe. *)
Definition bl_attached : backlight_device :=
  {| props := {| brightness := 0; max_brightness := NUM_STEPS; power := 0;
                 bl_type := BACKLIGHT_RAW; state := 0 |};
     bl_data := {| cur_level := 0 |} |}.

(** [n] executions of the loop body, on the level alone. *)
Fixpoint iter_level (n : nat) (l : Z) : Z :=
  match n with
  | O => l
  | S n' => iter_level n' (next_level l)
  end.

(** Device state and trace after the guard of lines 57-58. *)
Definition after_guard (bl : backlight_device) : backlight_device :=
  if brightness (props bl) <? MIN_STEP then with_cur_level 0 bl else bl.

Definition guard_trace (bl : backlight_device) : list gpio_event :=
  if brightness (props bl) <? MIN_STEP then shutdown_seq else [].

(** The loop of lines 61-75 cut after at most [n] iterations: what has
    happened by the time the body has run [n] times. *)
Fixpoint pulse_loop_prefix (n : nat) : drv unit :=
  match n with
  | O => ret tt
  | S n' =>
      c <- level_differs ;;
      if c then pulse_step ;;; pulse_loop_prefix n' else ret tt
  end.

(** A device at rest at level [l]: last request [l], believed level [l]. *)
Definition bl_at (l : Z) : backlight_device :=
  with_cur_level l (with_brightness l bl_attached).

(** The host's answers when every call of probe succeeds and the
    configured default level is [d]. *)
Definition env_default (d : Z) : probe_env :=
  {| devm_kzalloc_ok := true;
     devm_gpiod_get := ValidPtr;
     of_property_read_u32 := (0, d);
     devm_backlight_device_register := ValidPtr |}.

(** The value the level GPIO holds after a trace, given the value it held
    before: an output line keeps the last value written to it. *)
Definition gpio_line (before : bool) (tr : list gpio_event) : bool :=
  fold_left (fun v e => match e with GpioSet b => b | _ => v end) tr before.

(** Time spent in the blocking delays of a trace, in nanoseconds. *)
Definition busy_ns (tr : list gpio_event) : Z :=
  fold_right
    (fun e acc =>
       match e with
       | GpioSet _ => acc
       | Ndelay ns => ns + acc
       | Mdelay ms => 1000000 * ms + acc
       end) 0 tr.

(** The whole life of a device: probe, a sequence of requests, remove.
    The result is probe's return code alone when probe registers nothing,
    and otherwise the final device with the concatenated GPIO trace. *)
Definition lifecycle (fuel : nat) (env : probe_env) (targets : list Z)
  : option (Z + backlight_device * list gpio_event) :=
  match fan5345_probe fuel env with
  | None => None
  | Some r =>
      match probe_registered r with
      | None => Some (inl (probe_rc r))
      | Some bl =>
          match (apply_all fuel targets ;;; fan5345_remove fuel) bl with
          | None => None
          | Some (_, bl', tr) => Some (inr (bl', probe_gpio r ++ tr))
          end
      end
  end.

(** * Proofs *)

(** Range goals on concrete devices. *)
Ltac solve_level := unfold level_ok, NUM_STEPS; cbn; lia.

Lemma wrap_int_id (z : Z) : in_int z -> wrap_int z = z.
Proof.
  unfold in_int, int_min, int_max, wrap_int; intros H.
  rewrite Z.mod_small; lia.
Qed.

Lemma wrap_int_range (z : Z) : in_int (wrap_int z).
Proof.
  unfold in_int, int_min, int_max, wrap_int.
  pose proof (Z.mod_pos_bound (z + 2 ^ 31) (2 ^ 32) ltac:(lia)); lia.
Qed.

Lemma with_cur_level_same (bl : backlight_device) :
  with_cur_level (cur_level (bl_data bl)) bl = bl.
Proof. destruct bl as [p [l]]; reflexivity. Qed.

Lemma next_level_small (l : Z) :
  int_min < l -> l <= 1 -> next_level l = NUM_STEPS.
Proof.
  intros Hlo Hhi. unfold next_level, DIR.
  rewrite wrap_int_id by (unfold in_int, int_min, int_max in *; lia).
  destruct (Z.leb_spec (l - 1) 0); [reflexivity | lia].
Qed.

Lemma next_level_pred (l : Z) :
  1 < l -> l <= int_max -> next_level l = l - 1.
Proof.
  intros Hlo Hhi. unfold next_level, DIR.
  rewrite wrap_int_id by (unfold in_int, int_min, int_max in *; lia).
  destruct (Z.leb_spec (l - 1) 0); [lia | reflexivity].
Qed.

Lemma next_level_spec (l : Z) :
  int_min < l -> l <= int_max -> next_level l = Spec.decrement_with_wrap l.
Proof.
  intros Hlo Hhi. unfold next_level, DIR, Spec.decrement_with_wrap.
  rewrite wrap_int_id by (unfold in_int, int_min, int_max in *; lia).
  reflexivity.
Qed.

Lemma next_level_range (l : Z) : 1 <= next_level l <= int_max.
Proof.
  unfold next_level, NUM_STEPS.
  pose proof (wrap_int_range (l - 1)) as H. fold (DIR l) in H.
  unfold in_int, int_min, int_max in *.
  destruct (Z.leb_spec (DIR l) 0); lia.
Qed.

Lemma next_level_ok (l : Z) :
  0 <= l <= NUM_STEPS -> 1 <= next_level l <= NUM_STEPS.
Proof.
  unfold NUM_STEPS; intros H.
  destruct (Z_le_gt_dec l 1).
  - rewrite next_level_small by (unfold int_min; lia). unfold NUM_STEPS; lia.
  - rewrite next_level_pred by (unfold int_max; lia). lia.
Qed.

Lemma pulse_step_run (bl : backlight_device) :
  pulse_step bl =
  Some (tt, with_cur_level (next_level (cur_level (bl_data bl))) bl, pulse_seq).
Proof.
  unfold pulse_step, bind, next_level, bl_get_data; cbn.
  unfold bl_get_data.
  destruct (DIR (cur_level (bl_data bl)) <=? 0); reflexivity.
Qed.

Lemma level_differs_run (bl : backlight_device) :
  level_differs bl =
  Some (negb (cur_level (bl_data bl) =? brightness (props bl)), bl, []).
Proof. reflexivity. Qed.

Lemma pulse_loop_unfold (fuel : nat) (bl : backlight_device) :
  pulse_loop fuel bl =
  if cur_level (bl_data bl) =? brightness (props bl)
  then Some (tt, bl, [])
  else match fuel with
       | O => None
       | S fuel' =>
           prepend pulse_seq
             (pulse_loop fuel'
                (with_cur_level (next_level (cur_level (bl_data bl))) bl))
       end.
Proof.
  unfold pulse_loop.
  destruct fuel as [|fuel']; cbn [while]; unfold bind at 1;
    rewrite level_differs_run;
    destruct (cur_level (bl_data bl) =? brightness (props bl));
    cbn [negb]; try reflexivity.
  unfold bind. rewrite pulse_step_run.
  destruct (while fuel' level_differs pulse_step _) as [[[u bl'] tr]|];
    reflexivity.
Qed.

Lemma pulse_loop_stop (fuel : nat) (bl : backlight_device) :
  cur_level (bl_data bl) = brightness (props bl) ->
  pulse_loop fuel bl = Some (tt, bl, []).
Proof.
  intros H. rewrite pulse_loop_unfold, H, Z.eqb_refl. reflexivity.
Qed.

Lemma pulse_loop_out_of_fuel (bl : backlight_device) :
  cur_level (bl_data bl) <> brightness (props bl) ->
  pulse_loop 0 bl = None.
Proof.
  intros H. apply Z.eqb_neq in H. rewrite pulse_loop_unfold, H. reflexivity.
Qed.

Lemma pulse_loop_step (fuel : nat) (bl : backlight_device) :
  cur_level (bl_data bl) <> brightness (props bl) ->
  pulse_loop (S fuel) bl =
  prepend pulse_seq
    (pulse_loop fuel (with_cur_level (next_level (cur_level (bl_data bl))) bl)).
Proof.
  intros H. apply Z.eqb_neq in H. rewrite pulse_loop_unfold, H. reflexivity.
Qed.

(** *** The loop reaches every legal target *)

Lemma pulses_needed_bound (l t : Z) :
  0 <= l <= NUM_STEPS -> 1 <= t <= NUM_STEPS ->
  0 <= pulses_needed l t <= NUM_STEPS.
Proof.
  unfold pulses_needed, NUM_STEPS; intros Hl Ht.
  destruct (Z.eqb_spec l t); [lia|].
  destruct (Z.ltb_spec t l); [lia|].
  destruct (Z.eqb_spec l 0); lia.
Qed.

Lemma pulses_needed_next (l t : Z) :
  0 <= l <= NUM_STEPS -> 1 <= t <= NUM_STEPS -> l <> t ->
  pulses_needed (next_level l) t = pulses_needed l t - 1.
Proof.
  unfold NUM_STEPS; intros Hl Ht Hne.
  destruct (Z_le_gt_dec l 1) as [Hs|Hs].
  - rewrite next_level_small by (unfold int_min; lia).
    unfold pulses_needed, NUM_STEPS.
    destruct (Z.eqb_spec 32 t), (Z.eqb_spec l t), (Z.ltb_spec t 32),
      (Z.ltb_spec t l), (Z.eqb_spec l 0), (Z.eqb_spec 32 0); lia.
  - rewrite next_level_pred by (unfold int_max; lia).
    unfold pulses_needed, NUM_STEPS.
    destruct (Z.eqb_spec (l - 1) t), (Z.eqb_spec l t), (Z.ltb_spec t (l - 1)),
      (Z.ltb_spec t l), (Z.eqb_spec l 0), (Z.eqb_spec (l - 1) 0); lia.
Qed.

Lemma pulse_loop_reaches (n : nat) :
  forall (fuel : nat) (bl : backlight_device),
    0 <= cur_level (bl_data bl) <= NUM_STEPS ->
    1 <= brightness (props bl) <= NUM_STEPS ->
    Z.of_nat n = pulses_needed (cur_level (bl_data bl)) (brightness (props bl)) ->
    (n <= fuel)%nat ->
    pulse_loop fuel bl =
    Some (tt, with_cur_level (brightness (props bl)) bl, pulse_train n).
Proof.
  induction n as [|n IH]; intros fuel bl Hl Ht Hn Hfuel.
  - assert (cur_level (bl_data bl) = brightness (props bl)) as E.
    { revert Hn. unfold pulses_needed, NUM_STEPS in *.
      destruct (Z.eqb_spec (cur_level (bl_data bl)) (brightness (props bl)));
        [trivial|].
      destruct (Z.ltb_spec (brightness (props bl)) (cur_level (bl_data bl)));
        [lia|].
      destruct (Z.eqb_spec (cur_level (bl_data bl)) 0); lia. }
    rewrite pulse_loop_stop by exact E.
    rewrite <- E, with_cur_level_same. reflexivity.
  - assert (cur_level (bl_data bl) <> brightness (props bl)) as Hne.
    { intros E. unfold pulses_needed in Hn.
      rewrite E, Z.eqb_refl in Hn. lia. }
    destruct fuel as [|fuel]; [lia|].
    rewrite pulse_loop_step by exact Hne.
    rewrite (IH fuel); cbn.
    + reflexivity.
    + apply next_level_ok in Hl. lia.
    + exact Ht.
    + rewrite pulses_needed_next by assumption. lia.
    + lia.
Qed.

(** *** The loop never finishes for a target outside [0, NUM_STEPS] *)

Lemma pulse_loop_diverges (fuel : nat) :
  forall bl : backlight_device,
    level_ok bl ->
    brightness (props bl) < 0 \/ NUM_STEPS < brightness (props bl) ->
    pulse_loop fuel bl = None.
Proof.
  unfold level_ok.
  induction fuel as [|fuel IH]; intros bl Hl Ht.
  - apply pulse_loop_out_of_fuel. lia.
  - rewrite pulse_loop_step by lia.
    rewrite IH; cbn.
    + reflexivity.
    + apply next_level_ok in Hl. lia.
    + exact Ht.
Qed.

(** *** What a finished loop has done *)

Lemma pulse_loop_result (fuel : nat) :
  forall (bl bl' : backlight_device) (u : unit) (tr : list gpio_event),
    pulse_loop fuel bl = Some (u, bl', tr) ->
    exists n : nat,
      (n <= fuel)%nat /\
      tr = pulse_train n /\
      bl' = with_cur_level (iter_level n (cur_level (bl_data bl))) bl /\
      cur_level (bl_data bl') = brightness (props bl).
Proof.
  induction fuel as [|fuel IH]; intros bl bl' u tr H;
    rewrite pulse_loop_unfold in H;
    destruct (Z.eqb_spec (cur_level (bl_data bl)) (brightness (props bl)))
      as [E|E]; try discriminate.
  - inversion H; subst. exists 0%nat. cbn.
    rewrite with_cur_level_same. auto.
  - inversion H; subst. exists 0%nat. cbn.
    rewrite with_cur_level_same. auto with arith.
  - destruct (pulse_loop fuel _) as [[[u1 bl1] tr1]|] eqn:R; [|discriminate].
    cbn in H. inversion H; subst.
    apply IH in R. destruct R as (n & Hn & Htr & Hbl & Hlvl).
    exists (S n). cbn in *. subst. auto with arith.
Qed.

Lemma iter_level_ok (n : nat) :
  forall l : Z, 0 <= l <= NUM_STEPS -> 0 <= iter_level n l <= NUM_STEPS.
Proof.
  induction n as [|n IH]; intros l Hl; cbn; [exact Hl|].
  apply IH. apply next_level_ok in Hl. lia.
Qed.

Lemma iter_level_replay (n : nat) :
  forall l : Z,
    0 <= l <= NUM_STEPS ->
    iter_level n l = Spec.replay l (repeat StepDown n).
Proof.
  induction n as [|n IH]; intros l Hl; cbn; [reflexivity|].
  rewrite IH by (apply next_level_ok in Hl; lia).
  rewrite next_level_spec by (unfold NUM_STEPS, int_min, int_max in *; lia).
  reflexivity.
Qed.

(** *** Decoding what the driver emits *)

Lemma ic_decode_pulse_train (n : nat) :
  ic_decode (pulse_train n) = Some (repeat StepDown n).
Proof.
  induction n as [|n IH]; [reflexivity|].
  cbn [pulse_train pulse_seq app ic_decode repeat].
  rewrite IH. reflexivity.
Qed.

Lemma ic_decode_shutdown_train (n : nat) :
  ic_decode (shutdown_seq ++ pulse_train n) = Some (Shutdown :: repeat StepDown n).
Proof.
  cbn [shutdown_seq app ic_decode]. rewrite ic_decode_pulse_train. reflexivity.
Qed.

Lemma pulses_pulse_train (n : nat) : pulses (pulse_train n) = Some n.
Proof.
  unfold pulses. rewrite ic_decode_pulse_train. f_equal.
  induction n as [|n IH]; cbn in *; [reflexivity | now rewrite IH].
Qed.

Lemma pulses_shutdown_train (n : nat) :
  pulses (shutdown_seq ++ pulse_train n) = Some n.
Proof.
  unfold pulses. rewrite ic_decode_shutdown_train. f_equal. cbn.
  induction n as [|n IH]; cbn in *; [reflexivity | now rewrite IH].
Qed.

(** *** [fan5345_set_level] in terms of its loop *)

Lemma fan5345_disable_run (bl : backlight_device) :
  fan5345_disable bl = Some (tt, with_cur_level 0 bl, shutdown_seq).
Proof. reflexivity. Qed.

Lemma fan5345_set_level_unfold (fuel : nat) (bl : backlight_device) :
  fan5345_set_level fuel bl =
  match pulse_loop fuel (after_guard bl) with
  | Some (_, bl', tr) => Some (0, bl', guard_trace bl ++ tr)
  | None => None
  end.
Proof.
  unfold fan5345_set_level, after_guard, guard_trace, bind at 1.
  cbn [load_brightness].
  unfold bind at 1.
  destruct (brightness (props bl) <? MIN_STEP).
  - rewrite fan5345_disable_run. unfold bind. fold (pulse_loop fuel).
    destruct (pulse_loop fuel _) as [[[u bl'] tr]|]; cbn; [|reflexivity].
    rewrite app_nil_r. reflexivity.
  - unfold ret at 1. unfold bind. fold (pulse_loop fuel).
    destruct (pulse_loop fuel _) as [[[u bl'] tr]|]; cbn; [|reflexivity].
    rewrite app_nil_r. reflexivity.
Qed.

Lemma apply_unfold (fuel : nat) (target : Z) (bl : backlight_device) :
  apply fuel target bl = fan5345_set_level fuel (with_brightness target bl).
Proof.
  unfold apply, bind, backlight_update_status, store_brightness.
  cbn [update_status fan5345bl_ops].
  destruct (fan5345_set_level fuel (with_brightness target bl))
    as [[[rc bl'] tr]|]; reflexivity.
Qed.

Lemma after_guard_props (bl : backlight_device) :
  props (after_guard bl) = props bl.
Proof. unfold after_guard. destruct (_ <? _); reflexivity. Qed.

Lemma after_guard_lit (bl : backlight_device) :
  MIN_STEP <= brightness (props bl) ->
  after_guard bl = bl /\ guard_trace bl = [].
Proof.
  intros H. unfold after_guard, guard_trace.
  destruct (Z.ltb_spec (brightness (props bl)) MIN_STEP); [lia | auto].
Qed.

Lemma after_guard_off (bl : backlight_device) :
  brightness (props bl) < MIN_STEP ->
  after_guard bl = with_cur_level 0 bl /\ guard_trace bl = shutdown_seq.
Proof.
  intros H. unfold after_guard, guard_trace.
  destruct (Z.ltb_spec (brightness (props bl)) MIN_STEP); [auto | lia].
Qed.

Lemma after_guard_ok (bl : backlight_device) :
  level_ok bl -> level_ok (after_guard bl).
Proof.
  unfold level_ok, after_guard, NUM_STEPS.
  destruct (_ <? _); cbn; lia.
Qed.

Lemma pulses_needed_mod (l t : Z) :
  1 <= l <= NUM_STEPS -> 1 <= t <= NUM_STEPS ->
  pulses_needed l t = (l - t) mod NUM_STEPS.
Proof.
  unfold pulses_needed, NUM_STEPS; intros Hl Ht.
  destruct (Z.eqb_spec l t) as [E|E].
  - subst. now rewrite Z.sub_diag.
  - destruct (Z.ltb_spec t l).
    + symmetry. apply Z.mod_small. lia.
    + destruct (Z.eqb_spec l 0); [lia|].
      apply Z.mod_unique_pos with (q := -1); lia.
Qed.

Lemma pulse_loop_prefix_out_of_range (n : nat) :
  forall bl : backlight_device,
    level_ok bl ->
    brightness (props bl) < 0 \/ NUM_STEPS < brightness (props bl) ->
    pulse_loop_prefix n bl =
    Some (tt, with_cur_level (iter_level n (cur_level (bl_data bl))) bl,
          pulse_train n).
Proof.
  unfold level_ok.
  induction n as [|n IH]; intros bl Hl Ht.
  - cbn. rewrite with_cur_level_same. reflexivity.
  - cbn [pulse_loop_prefix]. unfold bind at 1. rewrite level_differs_run.
    assert ((cur_level (bl_data bl) =? brightness (props bl)) = false) as E
      by (apply Z.eqb_neq; lia).
    rewrite E. cbn [negb]. unfold bind. rewrite pulse_step_run.
    rewrite IH; cbn.
    + reflexivity.
    + apply next_level_ok in Hl. lia.
    + exact Ht.
Qed.

(** The cut loop is a prefix of the loop: allowing [n + fuel] iterations
    is running the first [n] and then allowing [fuel] more. *)
Lemma pulse_loop_split (n fuel : nat) :
  forall bl : backlight_device,
    pulse_loop (n + fuel) bl = (pulse_loop_prefix n ;;; pulse_loop fuel) bl.
Proof.
  induction n as [|n IH]; intros bl.
  - cbn [Nat.add pulse_loop_prefix]. unfold bind, ret.
    destruct (pulse_loop fuel bl) as [[[u bl'] tr]|]; reflexivity.
  - cbn [Nat.add pulse_loop_prefix].
    rewrite pulse_loop_unfold.
    unfold bind at 1. unfold bind at 1. rewrite level_differs_run.
    destruct (Z.eqb_spec (cur_level (bl_data bl)) (brightness (props bl)))
      as [E|E]; cbn [negb].
    + unfold ret. rewrite pulse_loop_stop by exact E. reflexivity.
    + unfold bind at 1. rewrite pulse_step_run.
      rewrite IH. unfold bind.
      destruct (pulse_loop_prefix n _) as [[[u1 bl1] tr1]|]; [|reflexivity].
      destruct (pulse_loop fuel bl1) as [[[u2 bl2] tr2]|]; [|reflexivity].
      reflexivity.
Qed.

Lemma iter_level_lit (n : nat) (l : Z) :
  0 <= l <= NUM_STEPS -> (0 < n)%nat -> 1 <= iter_level n l <= NUM_STEPS.
Proof.
  intros Hl Hn. destruct n as [|n]; [lia|]. cbn.
  apply next_level_ok in Hl.
  revert Hl. generalize (next_level l). clear.
  induction n as [|n IH]; intros l Hl; cbn; [exact Hl|].
  apply IH. assert (0 <= l <= NUM_STEPS) as H by lia.
  apply next_level_ok in H. exact H.
Qed.

Lemma fan5345_remove_run (fuel : nat) (bl : backlight_device) :
  fan5345_remove fuel bl =
  Some ((0, [dev_info msg_unload []]),
        with_cur_level 0 (with_brightness 0 (with_power 0 bl)),
        shutdown_seq).
Proof.
  unfold fan5345_remove, bind, store_power, store_brightness,
    backlight_update_status.
  cbn [update_status fan5345bl_ops].
  rewrite fan5345_set_level_unfold.
  rewrite pulse_loop_stop by reflexivity. reflexivity.
Qed.

(** * The claims *)

(** C1. For every pair of levels [start] and [target] in [1, NUM_STEPS],
    a request for [target] made while the believed level is [start]
    returns 0 once the loop is allowed [n] iterations, where
    [n = (start - target) mod 32] is at most 32; it emits exactly [n]
    step-down pulses and nothing else, and leaves the believed level equal
    to [target]. *)
Theorem apply_reaches_target (start target : Z) (bl : backlight_device) :
  1 <= start <= NUM_STEPS ->
  1 <= target <= NUM_STEPS ->
  cur_level (bl_data bl) = start ->
  exists n : nat,
    (n <= 32)%nat /\
    Z.of_nat n = (start - target) mod NUM_STEPS /\
    pulses (pulse_train n) = Some n /\
    forall fuel : nat,
      (n <= fuel)%nat ->
      exists bl' : backlight_device,
        apply fuel target bl = Some (0, bl', pulse_train n) /\
        cur_level (bl_data bl') = target /\
        bl' = with_cur_level target (with_brightness target bl).
Proof.
  intros Hs Ht Hl.
  pose proof (pulses_needed_bound start target ltac:(lia) Ht) as Hb.
  exists (Z.to_nat (pulses_needed start target)).
  unfold NUM_STEPS in Hb.
  split; [lia|].
  split; [rewrite Z2Nat.id by lia; now apply pulses_needed_mod|].
  split; [apply pulses_pulse_train|].
  intros fuel Hfuel.
  exists (with_cur_level target (with_brightness target bl)).
  split; [|split; reflexivity].
  rewrite apply_unfold, fan5345_set_level_unfold.
  destruct (after_guard_lit (with_brightness target bl)) as [Eg Et];
    [unfold MIN_STEP; cbn; lia|].
  rewrite Eg, Et.
  rewrite (pulse_loop_reaches (Z.to_nat (pulses_needed start target)));
    cbn [with_brightness props bl_data brightness].
  - reflexivity.
  - unfold NUM_STEPS in *; lia.
  - exact Ht.
  - rewrite Z2Nat.id by lia. now rewrite Hl.
  - exact Hfuel.
Qed.

Lemma apply_reaches_target_witness :
  exists n : nat,
    (n <= 32)%nat /\
    Z.of_nat n = (5 - 32) mod NUM_STEPS /\
    pulses (pulse_train n) = Some n /\
    forall fuel : nat,
      (n <= fuel)%nat ->
      exists bl' : backlight_device,
        apply fuel 32 (bl_at 5) = Some (0, bl', pulse_train n) /\
        cur_level (bl_data bl') = 32 /\
        bl' = with_cur_level 32 (with_brightness 32 (bl_at 5)).
Proof.
  apply (apply_reaches_target 5 32 (bl_at 5)).
  - unfold NUM_STEPS; lia.
  - unfold NUM_STEPS; lia.
  - reflexivity.
Defined.

Example apply_32_to_30 :
  apply 2 30 (bl_at 32) = Some (0, bl_at 30, pulse_train 2).
Proof. reflexivity. Qed.

Example apply_5_to_32 :
  apply 5 32 (bl_at 5) = Some (0, bl_at 32, pulse_train 5).
Proof. reflexivity. Qed.

Example apply_10_to_0 :
  apply 0 0 (bl_at 10) = Some (0, bl_at 0, shutdown_seq).
Proof. reflexivity. Qed.

(** C2, as stated, fails: a request for 33 on the freshly attached device
    is not answered with an error code, an empty trace and an unchanged
    believed level, whatever number of loop iterations is allowed. *)
Lemma apply_33_not_rejected :
  ~ (exists (fuel : nat) (rc : Z) (bl' : backlight_device),
        apply fuel 33 bl_attached = Some (rc, bl', []) /\
        rc <> 0 /\
        cur_level (bl_data bl') = cur_level (bl_data bl_attached)).
Proof.
  intros (fuel & rc & bl' & H & _).
  rewrite apply_unfold, fan5345_set_level_unfold in H.
  rewrite pulse_loop_diverges in H; [discriminate| |].
  - apply after_guard_ok. solve_level.
  - rewrite after_guard_props. right. unfold NUM_STEPS; cbn; lia.
Qed.

(** C2, amended. For every target greater than NUM_STEPS = 32 and every
    believed level in [0, 32], the driver makes no range check: the guard
    of line 57 leaves the device untouched, every loop iteration emits one
    step-down pulse ([n] iterations have emitted exactly [n] pulses), the
    believed level then lies in [1, 32] and differs from the target, and
    the call returns nothing for any number of allowed iterations. *)
Theorem apply_above_max_never_returns (target : Z) (bl : backlight_device) :
  level_ok bl ->
  NUM_STEPS < target ->
  (forall fuel : nat, apply fuel target bl = None) /\
  after_guard (with_brightness target bl) = with_brightness target bl /\
  guard_trace (with_brightness target bl) = [] /\
  forall n : nat,
    pulse_loop_prefix n (with_brightness target bl) =
      Some (tt,
            with_cur_level (iter_level n (cur_level (bl_data bl)))
              (with_brightness target bl),
            pulse_train n) /\
    pulses (pulse_train n) = Some n /\
    iter_level n (cur_level (bl_data bl)) <> target /\
    ((0 < n)%nat -> 1 <= iter_level n (cur_level (bl_data bl)) <= NUM_STEPS).
Proof.
  intros Hl Ht.
  assert (level_ok (with_brightness target bl)) as Hl' by exact Hl.
  destruct (after_guard_lit (with_brightness target bl)) as [Eg Et];
    [unfold MIN_STEP, NUM_STEPS in *; cbn; lia|].
  split; [|split; [exact Eg|split; [exact Et|]]].
  - intros fuel.
    rewrite apply_unfold, fan5345_set_level_unfold, Eg.
    rewrite pulse_loop_diverges; [reflexivity|exact Hl'|right; exact Ht].
  - intros n. split; [|split; [apply pulses_pulse_train|split]].
    + apply (pulse_loop_prefix_out_of_range n (with_brightness target bl) Hl').
      right; exact Ht.
    + pose proof (iter_level_ok n _ Hl). lia.
    + intros Hn. apply iter_level_lit; assumption.
Qed.

Lemma apply_above_max_never_returns_witness :
  (forall fuel : nat, apply fuel 33 bl_attached = None) /\
  after_guard (with_brightness 33 bl_attached) = with_brightness 33 bl_attached /\
  guard_trace (with_brightness 33 bl_attached) = [] /\
  forall n : nat,
    pulse_loop_prefix n (with_brightness 33 bl_attached) =
      Some (tt,
            with_cur_level (iter_level n (cur_level (bl_data bl_attached)))
              (with_brightness 33 bl_attached),
            pulse_train n) /\
    pulses (pulse_train n) = Some n /\
    iter_level n (cur_level (bl_data bl_attached)) <> 33 /\
    ((0 < n)%nat ->
     1 <= iter_level n (cur_level (bl_data bl_attached)) <= NUM_STEPS).
Proof.
  apply (apply_above_max_never_returns 33 bl_attached).
  - solve_level.
  - unfold NUM_STEPS; lia.
Defined.

Lemma apply_zero_shuts_down (fuel : nat) (bl : backlight_device) :
  apply fuel 0 bl =
  Some (0, with_cur_level 0 (with_brightness 0 bl), shutdown_seq).
Proof.
  rewrite apply_unfold, fan5345_set_level_unfold.
  rewrite pulse_loop_stop by reflexivity. reflexivity.
Qed.

Lemma apply_negative_never_returns
  (fuel : nat) (p : positive) (bl : backlight_device) :
  apply fuel (Z.neg p) bl = None.
Proof.
  rewrite apply_unfold, fan5345_set_level_unfold.
  rewrite pulse_loop_diverges; [reflexivity| |].
  - solve_level.
  - rewrite after_guard_props. left. cbn; lia.
Qed.

(** C3 at a negative target. From believed level 10, a request for 0 runs
    the shutdown sequence alone and returns 0 with the believed level 0,
    but a request for -1 does not behave like it: after the shutdown
    sequence the loop of line 61 is entered with 0 different from -1, its
    first iteration emits a step-down pulse and moves the believed level
    to 32, and the call returns nothing for any number of allowed
    iterations. *)
Theorem apply_minus_one_differs_from_off (fuel : nat) :
  apply fuel 0 (bl_at 10) = Some (0, bl_at 0, shutdown_seq) /\
  apply fuel (-1) (bl_at 10) = None /\
  fan5345_disable (with_brightness (-1) (bl_at 10)) =
    Some (tt, with_cur_level 0 (with_brightness (-1) (bl_at 10)), shutdown_seq) /\
  pulse_loop_prefix 1 (with_cur_level 0 (with_brightness (-1) (bl_at 10))) =
    Some (tt, with_cur_level 32 (with_brightness (-1) (bl_at 10)), pulse_seq).
Proof.
  split; [|split; [|split; reflexivity]].
  - apply apply_zero_shuts_down.
  - apply (apply_negative_never_returns fuel 1).
Qed.

(** *** What a finished call has done *)

Lemma fan5345_set_level_result
  (fuel : nat) (bl bl' : backlight_device) (rc : Z) (tr : list gpio_event) :
  fan5345_set_level fuel bl = Some (rc, bl', tr) ->
  exists n : nat,
    (n <= fuel)%nat /\
    rc = 0 /\
    tr = guard_trace bl ++ pulse_train n /\
    bl' = with_cur_level
            (iter_level n (cur_level (bl_data (after_guard bl)))) bl /\
    cur_level (bl_data bl') = brightness (props bl).
Proof.
  rewrite fan5345_set_level_unfold.
  destruct (pulse_loop fuel (after_guard bl)) as [[[u bl1] tr1]|] eqn:R;
    [|discriminate].
  intros H; inversion H; subst; clear H.
  apply pulse_loop_result in R. destruct R as (n & Hn & Htr & Hbl & Hlvl).
  exists n. rewrite after_guard_props in Hlvl.
  repeat split; try assumption.
  - now rewrite Htr.
  - rewrite Hbl. unfold after_guard.
    destruct (brightness (props bl) <? MIN_STEP); reflexivity.
Qed.

Lemma fan5345_set_level_tracks
  (fuel : nat) (bl bl' : backlight_device) (rc : Z) (tr : list gpio_event) :
  level_ok bl ->
  fan5345_set_level fuel bl = Some (rc, bl', tr) ->
  level_ok bl' /\
  props bl' = props bl /\
  exists cmds : list ic_cmd,
    ic_decode tr = Some cmds /\
    cur_level (bl_data bl') = Spec.replay (cur_level (bl_data bl)) cmds.
Proof.
  intros Hok H.
  apply fan5345_set_level_result in H.
  destruct H as (n & _ & _ & Htr & Hbl & _). subst bl' tr.
  pose proof (after_guard_ok bl Hok) as Hg. unfold level_ok in Hg.
  split; [|split; [reflexivity|]].
  - unfold level_ok. cbn. now apply iter_level_ok.
  - cbn [with_cur_level bl_data cur_level].
    rewrite iter_level_replay by exact Hg.
    unfold guard_trace, after_guard.
    destruct (brightness (props bl) <? MIN_STEP).
    + exists (Shutdown :: repeat StepDown n).
      split; [apply ic_decode_shutdown_train | reflexivity].
    + exists (repeat StepDown n).
      split; [apply ic_decode_pulse_train | reflexivity].
Qed.

Lemma probe_default_unfold (fuel : nat) (d : Z) (bl : backlight_device) :
  probe_default fuel d bl =
  match fan5345_set_level fuel (with_brightness (wrap_int d) bl) with
  | Some (err, bl', tr) =>
      Some (err,
            with_power FB_BLANK_UNBLANK
              (with_state (Z.land (state (props bl')) (Z.lnot BL_CORE_FBBLANK))
                 bl'),
            tr)
  | None => None
  end.
Proof.
  unfold probe_default, bind, backlight_update_status, store_brightness.
  cbn [update_status fan5345bl_ops].
  destruct (fan5345_set_level fuel (with_brightness (wrap_int d) bl))
    as [[[rc bl'] tr]|]; [|reflexivity].
  cbn. rewrite app_nil_r. reflexivity.
Qed.

Lemma fan5345_probe_tracks
  (fuel : nat) (env : probe_env) (r : probe_result) (bl : backlight_device) :
  fan5345_probe fuel env = Some r ->
  probe_registered r = Some bl ->
  level_ok bl /\
  exists cmds : list ic_cmd,
    ic_decode (probe_gpio r) = Some cmds /\
    cur_level (bl_data bl) = Spec.replay 0 cmds.
Proof.
  unfold fan5345_probe.
  destruct (devm_kzalloc_ok env); cbn [negb];
    [|intros H; inversion H; subst; discriminate].
  destruct (devm_gpiod_get env);
    [|intros H; inversion H; subst; discriminate].
  destruct (of_property_read_u32 env) as [err d].
  destruct (err =? 0) eqn:Eerr; cbn [negb];
    [|intros H; inversion H; subst; discriminate].
  destruct (devm_backlight_device_register env);
    [|intros H; inversion H; subst; discriminate].
  set (d' := if d >? NUM_STEPS then NUM_STEPS else d).
  fold bl_attached.
  destruct (d' =? 0); cbn [negb].
  - intros H Hreg; inversion H; subst; clear H. cbn in Hreg.
    inversion Hreg; subst.
    split; [solve_level|].
    exists []. split; reflexivity.
  - rewrite probe_default_unfold.
    destruct (fan5345_set_level fuel _) as [[[rc bl1] tr]|] eqn:R;
      [|discriminate].
    intros H Hreg; inversion H; subst; clear H. cbn in Hreg.
    inversion Hreg; subst; clear Hreg.
    apply fan5345_set_level_tracks in R;
      [|solve_level].
    destruct R as (Hok & _ & cmds & Hdec & Hrep).
    split; [exact Hok|].
    exists cmds. split; [exact Hdec | exact Hrep].
Qed.

(** C4. The believed level is 0 when probe creates the device, and every
    change made to it afterwards is the replay, on the specification's
    tracker, of the commands the driver put on the line (a step-down pulse
    decrements with wrap, a shutdown resets to 0): whenever probe returns
    with a registered device, and whenever a request returns on a device
    whose believed level is in [0, 32], the believed level is again in
    [0, 32]. *)
Theorem believed_level_invariant :
  (forall (fuel : nat) (env : probe_env) (r : probe_result)
          (bl : backlight_device),
      fan5345_probe fuel env = Some r ->
      probe_registered r = Some bl ->
      level_ok bl /\
      exists cmds : list ic_cmd,
        ic_decode (probe_gpio r) = Some cmds /\
        cur_level (bl_data bl) = Spec.replay 0 cmds) /\
  (forall (fuel : nat) (target : Z) (bl bl' : backlight_device)
          (rc : Z) (tr : list gpio_event),
      level_ok bl ->
      apply fuel target bl = Some (rc, bl', tr) ->
      level_ok bl' /\
      exists cmds : list ic_cmd,
        ic_decode tr = Some cmds /\
        cur_level (bl_data bl') = Spec.replay (cur_level (bl_data bl)) cmds).
Proof.
  split.
  - exact fan5345_probe_tracks.
  - intros fuel target bl bl' rc tr Hok H.
    rewrite apply_unfold in H.
    apply fan5345_set_level_tracks in H; [|exact Hok].
    destruct H as (Hok' & _ & cmds & Hdec & Hrep).
    split; [exact Hok'|]. exists cmds. split; [exact Hdec | exact Hrep].
Qed.

Lemma believed_level_invariant_witness :
  (level_ok (bl_at 32) /\
   exists cmds : list ic_cmd,
     ic_decode pulse_seq = Some cmds /\
     cur_level (bl_data (bl_at 32)) = Spec.replay 0 cmds) /\
  (level_ok (bl_at 32) /\
   exists cmds : list ic_cmd,
     ic_decode (pulse_train 5) = Some cmds /\
     cur_level (bl_data (bl_at 32)) =
       Spec.replay (cur_level (bl_data (bl_at 5))) cmds).
Proof.
  split.
  - apply (proj1 believed_level_invariant 1%nat (env_default 40)
             (mk_probe_result 0 (Some (bl_at 32))
                [dev_info msg_range [40; 32]; dev_info msg_init []]
                pulse_seq)
             (bl_at 32)); reflexivity.
  - apply (proj2 believed_level_invariant 5%nat 32 (bl_at 5) (bl_at 32) 0
             (pulse_train 5)).
    + solve_level.
    + reflexivity.
Defined.

Lemma apply_level_returns (x : Z) (bl : backlight_device) :
  level_ok bl ->
  0 <= x <= NUM_STEPS ->
  exists (bl1 : backlight_device) (tr1 : list gpio_event),
    apply 32 x bl = Some (0, bl1, tr1) /\
    level_ok bl1 /\
    cur_level (bl_data bl1) = x /\
    brightness (props bl1) = x.
Proof.
  intros Hok Hx.
  destruct (Z.eq_dec x 0) as [E|E].
  - subst x. rewrite apply_zero_shuts_down.
    eexists _, _. split; [reflexivity|].
    unfold level_ok, NUM_STEPS; cbn. repeat split; lia.
  - rewrite apply_unfold, fan5345_set_level_unfold.
    destruct (after_guard_lit (with_brightness x bl)) as [Eg Et];
      [unfold MIN_STEP; cbn; lia|].
    rewrite Eg, Et.
    pose proof (pulses_needed_bound (cur_level (bl_data bl)) x Hok
                  ltac:(unfold NUM_STEPS in *; lia)) as Hb.
    unfold NUM_STEPS in Hb.
    rewrite (pulse_loop_reaches
               (Z.to_nat (pulses_needed (cur_level (bl_data bl)) x)));
      cbn [with_brightness props bl_data brightness].
    + eexists _, _. split; [reflexivity|].
      unfold level_ok; cbn. repeat split; lia.
    + exact Hok.
    + unfold NUM_STEPS in *; lia.
    + rewrite Z2Nat.id by lia. reflexivity.
    + lia.
Qed.

(** Probe returns for every [u32] default level once the loop is allowed
    32 iterations. *)
Lemma fan5345_probe_returns (env : probe_env) :
  0 <= snd (of_property_read_u32 env) <= uint_max ->
  exists r : probe_result, fan5345_probe 32 env = Some r.
Proof.
  intros Hd. unfold fan5345_probe.
  destruct (devm_kzalloc_ok env); cbn [negb]; [|eexists; reflexivity].
  destruct (devm_gpiod_get env); [|eexists; reflexivity].
  destruct (of_property_read_u32 env) as [err d]. cbn [snd] in Hd.
  destruct (err =? 0); cbn [negb]; [|eexists; reflexivity].
  destruct (devm_backlight_device_register env); [|eexists; reflexivity].
  fold bl_attached.
  set (d' := if d >? NUM_STEPS then NUM_STEPS else d).
  assert (0 <= d' <= NUM_STEPS) as Hd'.
  { subst d'. unfold NUM_STEPS. destruct (Z.gtb_spec d 32); lia. }
  destruct (d' =? 0); cbn [negb]; [eexists; reflexivity|].
  rewrite probe_default_unfold.
  rewrite wrap_int_id
    by (unfold in_int, int_min, int_max, NUM_STEPS in *; lia).
  assert (level_ok bl_attached) as Hok
    by (solve_level).
  destruct (apply_level_returns d' bl_attached Hok Hd')
    as (bl1 & tr1 & H1 & _).
  rewrite apply_unfold in H1. rewrite H1.
  eexists; reflexivity.
Qed.

Lemma apply_again
  (fuel1 fuel2 : nat) (x : Z) (bl bl1 : backlight_device)
  (rc : Z) (tr1 : list gpio_event) :
  apply fuel1 x bl = Some (rc, bl1, tr1) ->
  apply fuel2 x bl1 = Some (0, bl1, guard_trace bl1) /\
  pulses (guard_trace bl1) = Some 0%nat.
Proof.
  rewrite apply_unfold. intros H.
  apply fan5345_set_level_result in H.
  destruct H as (n & _ & _ & _ & Hbl & Hlvl).
  cbn [with_brightness props brightness] in Hlvl.
  assert (brightness (props bl1) = x) as Hb by (subst bl1; reflexivity).
  assert (with_brightness x bl1 = bl1) as Hsame.
  { rewrite <- Hb. destruct bl1 as [[b m p t s] d]; reflexivity. }
  rewrite apply_unfold, Hsame, fan5345_set_level_unfold.
  assert (after_guard bl1 = bl1) as Hg.
  { unfold after_guard. destruct (brightness (props bl1) <? MIN_STEP) eqn:Elt;
      [|reflexivity].
    apply Z.ltb_lt in Elt. unfold MIN_STEP in Elt.
    assert (cur_level (bl_data bl1) = 0) as Hz.
    { subst bl1. cbn [with_cur_level bl_data cur_level] in *.
      cbn [with_brightness props brightness] in *.
      revert Hlvl. unfold after_guard.
      cbn [with_brightness props brightness].
      destruct (Z.ltb_spec x MIN_STEP) as [_|Hge];
        [|unfold MIN_STEP in Hge; lia].
      cbn [with_cur_level bl_data cur_level].
      destruct n as [|n]; [reflexivity|].
      intros Hlvl.
      pose proof (iter_level_lit (S n) 0 ltac:(unfold NUM_STEPS; lia)
                    ltac:(lia)) as Hr.
      lia. }
    rewrite <- Hz. apply with_cur_level_same. }
  rewrite Hg, pulse_loop_stop by congruence.
  rewrite app_nil_r. split; [reflexivity|].
  unfold guard_trace. destruct (brightness (props bl1) <? MIN_STEP);
    reflexivity.
Qed.

(** C5. For every level [x] in [0, 32], on a device whose believed level
    is in [0, 32], a first request for [x] returns, and a second request
    for [x] made right after it returns 0 for any number of allowed
    iterations, emits zero step-down pulses and leaves the device, and so
    the believed level, exactly as the first request left it. *)
Theorem apply_twice_no_pulses (x : Z) (bl : backlight_device) :
  level_ok bl ->
  0 <= x <= NUM_STEPS ->
  exists (bl1 : backlight_device) (tr1 : list gpio_event),
    apply 32 x bl = Some (0, bl1, tr1) /\
    forall fuel : nat,
      exists tr2 : list gpio_event,
        apply fuel x bl1 = Some (0, bl1, tr2) /\
        pulses tr2 = Some 0%nat /\
        tr2 = (if x <? MIN_STEP then shutdown_seq else []).
Proof.
  intros Hok Hx.
  destruct (apply_level_returns x bl Hok Hx) as (bl1 & tr1 & H1 & _ & _ & Hb).
  exists bl1, tr1. split; [exact H1|].
  intros fuel.
  destruct (apply_again 32 fuel x bl bl1 0 tr1 H1) as [H2 Hp].
  exists (guard_trace bl1).
  split; [exact H2|split; [exact Hp|]].
  unfold guard_trace. now rewrite Hb.
Qed.

Lemma apply_twice_no_pulses_witness :
  exists (bl1 : backlight_device) (tr1 : list gpio_event),
    apply 32 7 (bl_at 3) = Some (0, bl1, tr1) /\
    forall fuel : nat,
      exists tr2 : list gpio_event,
        apply fuel 7 bl1 = Some (0, bl1, tr2) /\
        pulses tr2 = Some 0%nat /\
        tr2 = (if 7 <? MIN_STEP then shutdown_seq else []).
Proof.
  apply (apply_twice_no_pulses 7 (bl_at 3)).
  - solve_level.
  - unfold NUM_STEPS; lia.
Defined.

(** C6. One execution of the loop body emits one pulse and replaces the
    believed level [l] (any [int] above INT_MIN, where [l - 1] does not
    overflow) by [l - 1], or by NUM_STEPS = 32 when [l - 1 <= 0]; this is
    the specification's decrement-with-wrap.  From believed level 1 the
    new level is 32, not 0. *)
Theorem pulse_step_decrements_with_wrap (bl : backlight_device) :
  int_min < cur_level (bl_data bl) <= int_max ->
  pulse_step bl =
    Some (tt,
          with_cur_level
            (if cur_level (bl_data bl) - 1 <=? 0
             then NUM_STEPS else cur_level (bl_data bl) - 1) bl,
          pulse_seq) /\
  next_level (cur_level (bl_data bl)) =
    Spec.decrement_with_wrap (cur_level (bl_data bl)) /\
  pulse_step (with_cur_level 1 bl) =
    Some (tt, with_cur_level 32 bl, pulse_seq) /\
  cur_level (bl_data (with_cur_level 32 bl)) <> 0.
Proof.
  intros Hl.
  assert (next_level (cur_level (bl_data bl)) =
          Spec.decrement_with_wrap (cur_level (bl_data bl))) as E
    by (apply next_level_spec; lia).
  split; [|split; [exact E|split]].
  - rewrite pulse_step_run, E. reflexivity.
  - rewrite pulse_step_run. reflexivity.
  - cbn. lia.
Qed.

Lemma pulse_step_decrements_with_wrap_witness :
  pulse_step (bl_at 1) =
    Some (tt,
          with_cur_level
            (if cur_level (bl_data (bl_at 1)) - 1 <=? 0
             then NUM_STEPS else cur_level (bl_data (bl_at 1)) - 1) (bl_at 1),
          pulse_seq) /\
  next_level (cur_level (bl_data (bl_at 1))) =
    Spec.decrement_with_wrap (cur_level (bl_data (bl_at 1))) /\
  pulse_step (with_cur_level 1 (bl_at 1)) =
    Some (tt, with_cur_level 32 (bl_at 1), pulse_seq) /\
  cur_level (bl_data (with_cur_level 32 (bl_at 1))) <> 0.
Proof.
  apply (pulse_step_decrements_with_wrap (bl_at 1)).
  unfold int_min, int_max; cbn; lia.
Defined.

(** C7. When every call of probe succeeds and the configured default
    level [d] is above NUM_STEPS = 32 (for instance 40), probe logs the
    out-of-range message with [d] and 32, requests level 32 on the device
    it registered with believed level 0, and returns 0: the trace is
    exactly one step-down pulse, after which the believed level is 32. *)
Theorem probe_saturates_default (d : Z) (fuel : nat) :
  NUM_STEPS < d ->
  (1 <= fuel)%nat ->
  fan5345_probe fuel (env_default d) =
    Some {| probe_rc := 0;
            probe_registered := Some (bl_at 32);
            probe_log := [dev_info msg_range [d; NUM_STEPS];
                          dev_info msg_init []];
            probe_gpio := pulse_seq |} /\
  pulses pulse_seq = Some 1%nat /\
  apply fuel NUM_STEPS bl_attached = Some (0, bl_at 32, pulse_seq).
Proof.
  intros Hd Hfuel.
  assert (apply fuel NUM_STEPS bl_attached = Some (0, bl_at 32, pulse_seq)) as Ha.
  { rewrite apply_unfold, fan5345_set_level_unfold.
    rewrite (pulse_loop_reaches 1); [reflexivity| | | |exact Hfuel];
      unfold NUM_STEPS; cbn; lia. }
  split; [|split; [reflexivity | exact Ha]].
  unfold fan5345_probe, env_default; cbn [devm_kzalloc_ok devm_gpiod_get
    of_property_read_u32 devm_backlight_device_register negb Z.eqb].
  assert ((d >? NUM_STEPS) = true) as Hgt by (apply Z.gtb_lt; exact Hd).
  rewrite Hgt. fold bl_attached.
  change (negb (NUM_STEPS =? 0)) with true. cbv iota.
  rewrite probe_default_unfold.
  rewrite apply_unfold in Ha.
  change (wrap_int NUM_STEPS) with NUM_STEPS.
  rewrite Ha. reflexivity.
Qed.

Lemma probe_saturates_default_witness :
  fan5345_probe 1 (env_default 40) =
    Some {| probe_rc := 0;
            probe_registered := Some (bl_at 32);
            probe_log := [dev_info msg_range [40; NUM_STEPS];
                          dev_info msg_init []];
            probe_gpio := pulse_seq |} /\
  pulses pulse_seq = Some 1%nat /\
  apply 1 NUM_STEPS bl_attached = Some (0, bl_at 32, pulse_seq).
Proof.
  apply (probe_saturates_default 40 1).
  - unfold NUM_STEPS; lia.
  - lia.
Defined.

Lemma last_cons_default (A : Type) (l : list A) :
  forall a d d' : A, last (a :: l) d = last (a :: l) d'.
Proof.
  induction l as [|b l IH]; intros a d d'; [reflexivity|].
  change (last (b :: l) d = last (b :: l) d'). apply IH.
Qed.

Lemma apply_all_last (fuel : nat) (targets : list Z) :
  forall (bl bl' : backlight_device) (u : unit) (tr : list gpio_event),
    apply_all fuel targets bl = Some (u, bl', tr) ->
    fan5345_get_level bl' = last targets (brightness (props bl)).
Proof.
  induction targets as [|t rest IH]; intros bl bl' u tr H.
  - cbn in H. inversion H; subst. reflexivity.
  - cbn [apply_all] in H. unfold bind in H.
    destruct (apply fuel t bl) as [[[rc bl1] tr1]|] eqn:R1; [|discriminate].
    destruct (apply_all fuel rest bl1) as [[[u2 bl2] tr2]|] eqn:R2;
      [|discriminate].
    inversion H; subst; clear H.
    apply IH in R2. rewrite R2.
    rewrite apply_unfold in R1.
    apply fan5345_set_level_result in R1.
    destruct R1 as (n & _ & _ & _ & Hbl & _). subst bl1.
    cbn [with_cur_level with_brightness props brightness].
    destruct rest as [|z rest]; [reflexivity|].
    change (last (t :: z :: rest) (brightness (props bl)))
      with (last (z :: rest) (brightness (props bl))).
    apply last_cons_default.
Qed.

Lemma apply_all_returns (targets : list Z) :
  forall bl : backlight_device,
    level_ok bl ->
    Forall (fun t => 0 <= t <= NUM_STEPS) targets ->
    exists (bl' : backlight_device) (tr : list gpio_event),
      apply_all 32 targets bl = Some (tt, bl', tr).
Proof.
  induction targets as [|t rest IH]; intros bl Hok Hall.
  - eexists _, _. reflexivity.
  - inversion Hall as [|? ? Ht Hrest]; subst.
    destruct (apply_level_returns t bl Hok Ht) as (bl1 & tr1 & H1 & Hok1 & _).
    destruct (IH bl1 Hok1 Hrest) as (bl' & tr & H2).
    cbn [apply_all]. unfold bind. rewrite H1, H2.
    eexists _, _. reflexivity.
Qed.

(** C8. For every sequence of requests for levels in [0, 32], made one
    after the other on a device whose believed level is in [0, 32], the
    sequence returns and [fan5345_get_level] then answers the last target
    requested (the stored brightness when the sequence is empty); the
    answer is the stored [props.brightness] whatever the target just
    stored, and it does not depend on the believed level. *)
Theorem get_level_is_last_request (targets : list Z) (bl : backlight_device) :
  level_ok bl ->
  Forall (fun t => 0 <= t <= NUM_STEPS) targets ->
  (exists (bl' : backlight_device) (tr : list gpio_event),
      apply_all 32 targets bl = Some (tt, bl', tr) /\
      fan5345_get_level bl' = last targets (brightness (props bl))) /\
  (forall (t : Z) (bl0 : backlight_device),
      fan5345_get_level (with_brightness t bl0) = t) /\
  (forall (l : Z) (bl0 : backlight_device),
      fan5345_get_level (with_cur_level l bl0) = fan5345_get_level bl0).
Proof.
  intros Hok Hall.
  split; [|split; reflexivity].
  destruct (apply_all_returns targets bl Hok Hall) as (bl' & tr & H).
  exists bl', tr. split; [exact H|].
  apply (apply_all_last 32 targets bl bl' tt tr H).
Qed.

Lemma get_level_is_last_request_witness :
  (exists (bl' : backlight_device) (tr : list gpio_event),
      apply_all 32 [5; 32; 0; 17] bl_attached = Some (tt, bl', tr) /\
      fan5345_get_level bl' =
        last [5; 32; 0; 17] (brightness (props bl_attached))) /\
  (forall (t : Z) (bl0 : backlight_device),
      fan5345_get_level (with_brightness t bl0) = t) /\
  (forall (l : Z) (bl0 : backlight_device),
      fan5345_get_level (with_cur_level l bl0) = fan5345_get_level bl0).
Proof.
  apply (get_level_is_last_request [5; 32; 0; 17] bl_attached).
  - solve_level.
  - repeat constructor; unfold NUM_STEPS; lia.
Defined.

(** C9. Whenever [fan5345_set_level] returns, on any device and target,
    the value it returns is 0. *)
Theorem set_level_returns_zero
  (fuel : nat) (bl bl' : backlight_device) (rc : Z) (tr : list gpio_event) :
  fan5345_set_level fuel bl = Some (rc, bl', tr) ->
  rc = 0.
Proof.
  intros H. apply fan5345_set_level_result in H.
  destruct H as (n & _ & Hrc & _). exact Hrc.
Qed.

Lemma set_level_returns_zero_witness :
  fan5345_set_level 31 (with_brightness 1 (bl_at 32)) =
    Some (0, bl_at 1, pulse_train 31) /\
  0 = 0.
Proof.
  split; [reflexivity|].
  apply (set_level_returns_zero 31 (with_brightness 1 (bl_at 32)) (bl_at 1) 0
           (pulse_train 31)).
  reflexivity.
Defined.

(** C10. When the allocation and the GPIO request succeed and
    [of_property_read_u32] returns a non-zero code [err], probe logs the
    parse error, returns [err], touches no GPIO and registers no device,
    whatever the registration call would have answered. *)
Theorem probe_parse_error_is_fatal
  (fuel : nat) (env : probe_env) (err v : Z) :
  devm_kzalloc_ok env = true ->
  devm_gpiod_get env = ValidPtr ->
  of_property_read_u32 env = (err, v) ->
  err <> 0 ->
  fan5345_probe fuel env =
    Some {| probe_rc := err;
            probe_registered := None;
            probe_log := [dev_err msg_parse []];
            probe_gpio := [] |}.
Proof.
  intros Hk Hg Hof Herr.
  unfold fan5345_probe. rewrite Hk, Hg, Hof. cbn [negb].
  apply Z.eqb_neq in Herr. rewrite Herr. reflexivity.
Qed.

Lemma probe_parse_error_is_fatal_witness :
  fan5345_probe 0
    {| devm_kzalloc_ok := true; devm_gpiod_get := ValidPtr;
       of_property_read_u32 := (-22, 0);
       devm_backlight_device_register := ValidPtr |} =
    Some {| probe_rc := -22;
            probe_registered := None;
            probe_log := [dev_err msg_parse []];
            probe_gpio := [] |}.
Proof.
  apply (probe_parse_error_is_fatal 0
           {| devm_kzalloc_ok := true; devm_gpiod_get := ValidPtr;
              of_property_read_u32 := (-22, 0);
              devm_backlight_device_register := ValidPtr |} (-22) 0);
    try reflexivity.
  lia.
Defined.

(** * Further properties of the driver *)

(** *** Detach *)

(** X1. From every device state and for any number of allowed loop
    iterations, remove returns 0 and logs the unload message; it drives
    the line low for 1 ms and emits no step-down pulse; afterwards the
    believed level, the requested brightness and the power field are 0
    and the other properties are untouched.  Removing twice gives the
    same device as removing once. *)
Theorem remove_always_shuts_down (fuel : nat) (bl : backlight_device) :
  exists bl' : backlight_device,
    fan5345_remove fuel bl =
      Some ((0, [dev_info msg_unload []]), bl', shutdown_seq) /\
    pulses shutdown_seq = Some 0%nat /\
    cur_level (bl_data bl') = 0 /\
    fan5345_get_level bl' = 0 /\
    power (props bl') = 0 /\
    max_brightness (props bl') = max_brightness (props bl) /\
    state (props bl') = state (props bl) /\
    bl_type (props bl') = bl_type (props bl) /\
    fan5345_remove fuel bl' =
      Some ((0, [dev_info msg_unload []]), bl', shutdown_seq).
Proof.
  exists (with_cur_level 0 (with_brightness 0 (with_power 0 bl))).
  rewrite !fan5345_remove_run.
  repeat split; reflexivity.
Qed.

(** *** Attach: failures *)

(** X2. Whenever probe returns, it has registered a device exactly when
    the allocation, the GPIO request, the property read and the
    registration all succeeded; when it registers nothing it has driven no
    GPIO. *)
Theorem probe_registers_iff_all_succeed
  (fuel : nat) (env : probe_env) (r : probe_result) :
  fan5345_probe fuel env = Some r ->
  (probe_registered r <> None <->
   devm_kzalloc_ok env = true /\
   devm_gpiod_get env = ValidPtr /\
   fst (of_property_read_u32 env) = 0 /\
   devm_backlight_device_register env = ValidPtr) /\
  (probe_registered r = None -> probe_gpio r = []).
Proof.
  unfold fan5345_probe.
  destruct (devm_kzalloc_ok env); cbn [negb].
  2:{ intros H; inversion H; subst; cbn. split; [|reflexivity].
      split; [congruence | intros (? & _); discriminate]. }
  destruct (devm_gpiod_get env).
  2:{ intros H; inversion H; subst; cbn. split; [|reflexivity].
      split; [congruence | intros (_ & ? & _); discriminate]. }
  destruct (of_property_read_u32 env) as [err d]. cbn [fst].
  destruct (Z.eqb_spec err 0) as [E|E]; cbn [negb].
  2:{ intros H; inversion H; subst; cbn. split; [|reflexivity].
      split; [congruence | intros (_ & _ & ? & _); contradiction]. }
  destruct (devm_backlight_device_register env).
  2:{ intros H; inversion H; subst; cbn. split; [|reflexivity].
      split; [congruence | intros (_ & _ & _ & ?); discriminate]. }
  destruct (negb _).
  - destruct (probe_default fuel _ _) as [[[e bl'] tr]|]; [|discriminate].
    intros H; inversion H; subst; cbn.
    split; [|discriminate]. split; [auto | discriminate].
  - intros H; inversion H; subst; cbn.
    split; [|discriminate]. split; [auto | discriminate].
Qed.

Lemma probe_registers_iff_all_succeed_witness :
  (probe_registered (mk_probe_result (-16) None [dev_err msg_gpio [-16]] [])
     <> None <->
   devm_kzalloc_ok (mk_env true (ErrPtr (-16)) (0, 5) ValidPtr) = true /\
   devm_gpiod_get (mk_env true (ErrPtr (-16)) (0, 5) ValidPtr) = ValidPtr /\
   fst (of_property_read_u32 (mk_env true (ErrPtr (-16)) (0, 5) ValidPtr)) = 0 /\
   devm_backlight_device_register (mk_env true (ErrPtr (-16)) (0, 5) ValidPtr)
     = ValidPtr) /\
  (probe_registered (mk_probe_result (-16) None [dev_err msg_gpio [-16]] [])
     = None ->
   probe_gpio (mk_probe_result (-16) None [dev_err msg_gpio [-16]] []) = []).
Proof.
  apply (probe_registers_iff_all_succeed 0
           (mk_env true (ErrPtr (-16)) (0, 5) ValidPtr)
           (mk_probe_result (-16) None [dev_err msg_gpio [-16]] [])).
  reflexivity.
Defined.

(** X3. Probe returns the code of the first host call that fails and
    stops there: a failed allocation gives -ENOMEM with nothing logged; a
    failed GPIO request gives its code, logged as an error, whatever the
    later calls would answer; a failed registration gives its code after
    the out-of-range notice (if the default level was above 32) and an
    error line.  In none of these cases is a device registered, the GPIO
    driven or the initialisation message logged. *)
Theorem probe_returns_first_failure
  (fuel : nat) (gpio reg : err_ptr) (prop : Z * Z) (e d : Z) :
  fan5345_probe fuel (mk_env false gpio prop reg) =
    Some (mk_probe_result (- ENOMEM) None [] []) /\
  fan5345_probe fuel (mk_env true (ErrPtr e) prop reg) =
    Some (mk_probe_result e None [dev_err msg_gpio [e]] []) /\
  fan5345_probe fuel (mk_env true ValidPtr (0, d) (ErrPtr e)) =
    Some (mk_probe_result e None
            ((if d >? NUM_STEPS
              then [dev_info msg_range [d; NUM_STEPS]] else [])
             ++ [dev_err msg_register []])
            []).
Proof.
  split; [reflexivity|split; [reflexivity|]].
  unfold fan5345_probe; cbn [devm_kzalloc_ok devm_gpiod_get
    of_property_read_u32 devm_backlight_device_register negb Z.eqb].
  reflexivity.
Qed.

(** *** Attach: the configured default level *)

(** X4. When every host call succeeds and the configured default level
    [d] is in [0, 32], probe returns 0, logs only the initialisation
    message, and registers a device whose requested brightness and
    believed level are both [d], with max_brightness 32.  For [d = 0] the
    GPIO is not driven at all; for [d >= 1] exactly [33 - d] step-down
    pulses are emitted, since the first pulse takes the believed level
    from 0 to 32. *)
Theorem probe_in_range_default (d : Z) (fuel : nat) :
  0 <= d <= NUM_STEPS ->
  (32 <= fuel)%nat ->
  fan5345_probe fuel (env_default d) =
    Some {| probe_rc := 0;
            probe_registered := Some (bl_at d);
            probe_log := [dev_info msg_init []];
            probe_gpio :=
              pulse_train (if d =? 0 then 0%nat else Z.to_nat (33 - d)) |} /\
  fan5345_get_level (bl_at d) = d /\
  cur_level (bl_data (bl_at d)) = d /\
  max_brightness (props (bl_at d)) = NUM_STEPS.
Proof.
  intros Hd Hfuel. split; [|repeat split].
  unfold fan5345_probe, env_default; cbn [devm_kzalloc_ok devm_gpiod_get
    of_property_read_u32 devm_backlight_device_register negb Z.eqb].
  unfold NUM_STEPS in Hd.
  destruct (Z.gtb_spec d NUM_STEPS) as [Hgt|_]; [unfold NUM_STEPS in Hgt; lia|].
  fold bl_attached.
  destruct (Z.eqb_spec d 0) as [E|E]; cbn [negb].
  - subst d. reflexivity.
  - rewrite probe_default_unfold.
    rewrite wrap_int_id by (unfold in_int, int_min, int_max; lia).
    rewrite fan5345_set_level_unfold.
    destruct (after_guard_lit (with_brightness d bl_attached)) as [Eg Et];
      [unfold MIN_STEP; cbn; lia|].
    rewrite Eg, Et.
    rewrite (pulse_loop_reaches (Z.to_nat (33 - d)));
      cbn [with_brightness props bl_data brightness bl_attached cur_level].
    + reflexivity.
    + unfold NUM_STEPS; lia.
    + unfold NUM_STEPS; lia.
    + rewrite Z2Nat.id by lia. unfold pulses_needed, NUM_STEPS.
      destruct (Z.eqb_spec 0 d); [lia|].
      destruct (Z.ltb_spec d 0); [lia|]. cbn. lia.
    + lia.
Qed.

Lemma probe_in_range_default_witness :
  fan5345_probe 32 (env_default 1) =
    Some {| probe_rc := 0;
            probe_registered := Some (bl_at 1);
            probe_log := [dev_info msg_init []];
            probe_gpio :=
              pulse_train (if 1 =? 0 then 0%nat else Z.to_nat (33 - 1)) |} /\
  fan5345_get_level (bl_at 1) = 1 /\
  cur_level (bl_data (bl_at 1)) = 1 /\
  max_brightness (props (bl_at 1)) = NUM_STEPS.
Proof.
  apply (probe_in_range_default 1 32).
  - unfold NUM_STEPS; lia.
  - lia.
Defined.

(** *** More on the loop *)

(** Allowing more iterations does not change the result of a loop that
    finished. *)
Lemma pulse_loop_more_fuel (fuel : nat) :
  forall (fuel' : nat) (bl : backlight_device)
         (r : unit * backlight_device * list gpio_event),
    (fuel <= fuel')%nat ->
    pulse_loop fuel bl = Some r ->
    pulse_loop fuel' bl = Some r.
Proof.
  induction fuel as [|fuel IH]; intros fuel' bl r Hle H;
    rewrite pulse_loop_unfold in H; rewrite pulse_loop_unfold;
    destruct (cur_level (bl_data bl) =? brightness (props bl));
    try exact H; try discriminate.
  destruct fuel' as [|fuel']; [lia|].
  destruct (pulse_loop fuel _) as [r1|] eqn:R; [|discriminate].
  rewrite (IH fuel' _ r1) by (lia || exact R). exact H.
Qed.

(** Above the target the loop walks straight down, without wrapping. *)
Lemma pulse_loop_descend (n : nat) :
  forall (fuel : nat) (bl : backlight_device),
    cur_level (bl_data bl) = brightness (props bl) + Z.of_nat n ->
    1 <= brightness (props bl) ->
    cur_level (bl_data bl) <= int_max ->
    (n <= fuel)%nat ->
    pulse_loop fuel bl =
    Some (tt, with_cur_level (brightness (props bl)) bl, pulse_train n).
Proof.
  induction n as [|n IH]; intros fuel bl Hl Ht Hmax Hfuel.
  - rewrite pulse_loop_stop by lia.
    replace (brightness (props bl)) with (cur_level (bl_data bl)) by lia.
    rewrite with_cur_level_same. reflexivity.
  - destruct fuel as [|fuel]; [lia|].
    rewrite pulse_loop_step by lia.
    rewrite next_level_pred by lia.
    assert (pulse_loop fuel
              (with_cur_level (cur_level (bl_data bl) - 1) bl) =
            Some (tt, with_cur_level (brightness (props bl)) bl,
                  pulse_train n)) as Hrec.
    { apply (IH fuel (with_cur_level (cur_level (bl_data bl) - 1) bl));
        cbn [with_cur_level props bl_data cur_level]; lia. }
    rewrite Hrec. reflexivity.
Qed.

(** For a lit target the loop finishes from every [int] believed level. *)
Lemma pulse_loop_finishes (bl : backlight_device) :
  in_int (cur_level (bl_data bl)) ->
  1 <= brightness (props bl) <= NUM_STEPS ->
  exists n : nat,
    pulse_loop n bl =
    Some (tt, with_cur_level (brightness (props bl)) bl, pulse_train n).
Proof.
  intros Hint Ht.
  assert (forall b : backlight_device,
             1 <= brightness (props b) <= NUM_STEPS ->
             0 <= cur_level (bl_data b) <= int_max ->
             exists n : nat,
               pulse_loop n b =
               Some (tt, with_cur_level (brightness (props b)) b,
                     pulse_train n)) as Hpos.
  { intros b Hb Hl.
    destruct (Z_le_gt_dec (brightness (props b)) (cur_level (bl_data b)))
      as [Hge|Hlt].
    - exists (Z.to_nat (cur_level (bl_data b) - brightness (props b))).
      apply pulse_loop_descend; lia.
    - pose proof (pulses_needed_bound (cur_level (bl_data b))
                    (brightness (props b))
                    ltac:(unfold NUM_STEPS in *; lia) Hb) as Hn.
      exists (Z.to_nat (pulses_needed (cur_level (bl_data b))
                          (brightness (props b)))).
      apply pulse_loop_reaches; try lia.
      all: unfold NUM_STEPS in *; lia. }
  destruct (Z_le_gt_dec 0 (cur_level (bl_data bl))) as [Hge|Hlt].
  - apply Hpos; [exact Ht | unfold in_int in Hint; lia].
  - pose proof (next_level_range (cur_level (bl_data bl))) as Hn.
    destruct (Hpos (with_cur_level (next_level (cur_level (bl_data bl))) bl))
      as (n & Hrun).
    + exact Ht.
    + cbn [with_cur_level bl_data cur_level]. lia.
    + exists (S n).
      rewrite pulse_loop_step by lia.
      rewrite Hrun. reflexivity.
Qed.

(** A request that returns on a device with a legal believed level was for
    a legal target, and its result is fully determined. *)
Lemma apply_result_exact
  (fuel : nat) (target : Z) (bl bl' : backlight_device)
  (rc : Z) (tr : list gpio_event) :
  level_ok bl ->
  apply fuel target bl = Some (rc, bl', tr) ->
  0 <= target <= NUM_STEPS /\
  rc = 0 /\
  bl' = with_cur_level target (with_brightness target bl) /\
  tr = guard_trace (with_brightness target bl) ++
       pulse_train
         (Z.to_nat
            (pulses_needed
               (cur_level (bl_data (after_guard (with_brightness target bl))))
               target)).
Proof.
  intros Hok H.
  set (b := with_brightness target bl) in *.
  assert (level_ok (after_guard b)) as Hg by (apply after_guard_ok; exact Hok).
  rewrite apply_unfold, fan5345_set_level_unfold in H. fold b in H.
  assert (0 <= target <= NUM_STEPS) as Ht.
  { destruct (Z_lt_ge_dec target 0) as [Hneg|Hnn];
      [|destruct (Z_le_gt_dec target NUM_STEPS) as [Hle|Hgt]; [lia|]].
    - rewrite pulse_loop_diverges in H; [discriminate|exact Hg|].
      rewrite after_guard_props. left. exact Hneg.
    - rewrite pulse_loop_diverges in H; [discriminate|exact Hg|].
      rewrite after_guard_props. right. unfold b; cbn. lia. }
  split; [exact Ht|].
  destruct (pulse_loop fuel (after_guard b)) as [[[u b1] tr1]|] eqn:R;
    [|discriminate].
  inversion H; subst rc bl' tr; clear H.
  split; [reflexivity|].
  set (n := Z.to_nat (pulses_needed (cur_level (bl_data (after_guard b))) target)).
  assert (pulse_loop (Nat.max fuel 32) (after_guard b) =
          Some (tt, with_cur_level target b, pulse_train n)) as Hexp.
  { destruct (Z.eq_dec target 0) as [E|E].
    - subst n. rewrite E.
      replace (after_guard b) with (with_cur_level 0 b)
        by (unfold after_guard, b; rewrite E; reflexivity).
      rewrite pulse_loop_stop by (unfold b; rewrite E; reflexivity).
      reflexivity.
    - destruct (after_guard_lit b) as [Eg _];
        [unfold MIN_STEP, b; cbn; lia|].
      subst n. rewrite Eg in *.
      pose proof (pulses_needed_bound (cur_level (bl_data b)) target Hg
                    ltac:(lia)) as Hb. unfold NUM_STEPS in Hb.
      change (cur_level (bl_data b)) with (cur_level (bl_data bl)) in *.
      rewrite (pulse_loop_reaches
                 (Z.to_nat (pulses_needed (cur_level (bl_data bl)) target)));
        cbn [b with_brightness props bl_data brightness].
      + reflexivity.
      + exact Hok.
      + lia.
      + rewrite Z2Nat.id by lia. reflexivity.
      + lia. }
  rewrite (pulse_loop_more_fuel fuel (Nat.max fuel 32) _ _ ltac:(lia) R)
    in Hexp.
  inversion Hexp; subst. split; reflexivity.
Qed.

(** *** Cost of a request *)

(** X5. On a device whose believed level [l] is in [0, 32], a request for
    a lit target [t] in [1, 32] emits exactly [l - t] pulses when
    [t <= l], [l + 32 - t] when [1 <= l < t], and [33 - t] when [l = 0]
    (the first pulse after a shutdown takes the believed level to 32).
    The count never exceeds 32, and 32 pulses are needed only to reach
    level 1 from off. *)
Theorem apply_pulse_count (l t : Z) (fuel : nat) (bl : backlight_device) :
  0 <= l <= NUM_STEPS ->
  1 <= t <= NUM_STEPS ->
  cur_level (bl_data bl) = l ->
  (32 <= fuel)%nat ->
  exists n : nat,
    apply fuel t bl =
      Some (0, with_cur_level t (with_brightness t bl), pulse_train n) /\
    pulses (pulse_train n) = Some n /\
    Z.of_nat n =
      (if t <=? l then l - t else if l =? 0 then 33 - t else l + 32 - t) /\
    (n <= 32)%nat /\
    (n = 32%nat <-> l = 0 /\ t = 1).
Proof.
  intros Hl Ht Hcur Hfuel.
  assert (level_ok bl) as Hok by (unfold level_ok; lia).
  destruct (apply_level_returns t bl Hok ltac:(lia)) as (bl1 & tr1 & H1 & _).
  rewrite apply_unfold, fan5345_set_level_unfold in H1.
  destruct (pulse_loop 32 _) as [r|] eqn:R; [|discriminate].
  assert (apply fuel t bl = Some (0, bl1, tr1)) as H.
  { rewrite apply_unfold, fan5345_set_level_unfold.
    rewrite (pulse_loop_more_fuel 32 fuel _ r Hfuel R). exact H1. }
  destruct (apply_result_exact fuel t bl bl1 0 tr1 Hok H)
    as (_ & _ & Hbl & Htr).
  destruct (after_guard_lit (with_brightness t bl)) as [Eg Et];
    [unfold MIN_STEP; cbn; lia|].
  rewrite Eg, Et in Htr.
  cbn [with_brightness bl_data app] in Htr. rewrite Hcur in Htr.
  pose proof (pulses_needed_bound l t Hl Ht) as Hb. unfold NUM_STEPS in *.
  exists (Z.to_nat (pulses_needed l t)).
  rewrite H, Hbl, Htr.
  split; [reflexivity|]. split; [apply pulses_pulse_train|].
  assert (pulses_needed l t =
          (if t <=? l then l - t else if l =? 0 then 33 - t else l + 32 - t))
    as Hform.
  { unfold pulses_needed, NUM_STEPS.
    destruct (Z.eqb_spec l t), (Z.leb_spec t l), (Z.ltb_spec t l),
      (Z.eqb_spec l 0); lia. }
  split; [rewrite Z2Nat.id by lia; exact Hform|].
  split; [lia|].
  rewrite Hform in *.
  destruct (Z.leb_spec t l), (Z.eqb_spec l 0); lia.
Qed.

Lemma apply_pulse_count_witness :
  exists n : nat,
    apply 32 1 bl_attached =
      Some (0, with_cur_level 1 (with_brightness 1 bl_attached),
            pulse_train n) /\
    pulses (pulse_train n) = Some n /\
    Z.of_nat n =
      (if 1 <=? 0 then 0 - 1 else if 0 =? 0 then 33 - 1 else 0 + 32 - 1) /\
    (n <= 32)%nat /\
    (n = 32%nat <-> 0 = 0 /\ 1 = 1).
Proof.
  apply (apply_pulse_count 0 1 32 bl_attached).
  - unfold NUM_STEPS; lia.
  - unfold NUM_STEPS; lia.
  - reflexivity.
  - lia.
Defined.

(** *** When a request returns *)

(** X6. Whatever [int] value the believed level holds (also one outside
    [0, 32]), a request for a legal target in [0, 32] returns 0 once
    enough iterations are allowed, and leaves the believed level equal to
    the target, hence back in [0, 32]; the trace is a well-formed
    sequence of commands. *)
Theorem apply_returns_from_any_level (target : Z) (bl : backlight_device) :
  in_int (cur_level (bl_data bl)) ->
  0 <= target <= NUM_STEPS ->
  exists (fuel : nat) (tr : list gpio_event) (n : nat),
    apply fuel target bl =
      Some (0, with_cur_level target (with_brightness target bl), tr) /\
    level_ok (with_cur_level target (with_brightness target bl)) /\
    pulses tr = Some n.
Proof.
  intros Hint Ht.
  assert (level_ok (with_cur_level target (with_brightness target bl))) as Hok
    by (unfold level_ok; cbn; exact Ht).
  destruct (Z.eq_dec target 0) as [E|E].
  - subst target. exists 0%nat, shutdown_seq, 0%nat.
    rewrite apply_zero_shuts_down. repeat split; solve_level.
  - destruct (pulse_loop_finishes (with_brightness target bl)) as (n & Hrun).
    + exact Hint.
    + cbn. unfold NUM_STEPS in *; lia.
    + exists n, (pulse_train n), n.
      rewrite apply_unfold, fan5345_set_level_unfold.
      destruct (after_guard_lit (with_brightness target bl)) as [Eg Et];
        [unfold MIN_STEP; cbn; lia|].
      rewrite Eg, Et, Hrun.
      split; [reflexivity|]. split; [exact Hok | apply pulses_pulse_train].
Qed.

Lemma apply_returns_from_any_level_witness :
  exists (fuel : nat) (tr : list gpio_event) (n : nat),
    apply fuel 30 (with_cur_level (-7) bl_attached) =
      Some (0,
            with_cur_level 30 (with_brightness 30 (with_cur_level (-7) bl_attached)),
            tr) /\
    level_ok
      (with_cur_level 30 (with_brightness 30 (with_cur_level (-7) bl_attached))) /\
    pulses tr = Some n.
Proof.
  apply (apply_returns_from_any_level 30 (with_cur_level (-7) bl_attached)).
  - unfold in_int, int_min, int_max; cbn; lia.
  - unfold NUM_STEPS; lia.
Defined.

(** X7. On a device whose believed level is in [0, 32], a request returns
    (for some number of allowed iterations) exactly when its target is in
    [0, 32]; for every other target the loop runs for ever. *)
Theorem apply_returns_iff_legal_target (target : Z) (bl : backlight_device) :
  level_ok bl ->
  ((exists (fuel : nat) (rc : Z) (bl' : backlight_device)
           (tr : list gpio_event),
       apply fuel target bl = Some (rc, bl', tr)) <->
   0 <= target <= NUM_STEPS).
Proof.
  intros Hok. split.
  - intros (fuel & rc & bl' & tr & H).
    apply (apply_result_exact fuel target bl bl' rc tr Hok H).
  - intros Ht.
    destruct (apply_level_returns target bl Hok Ht) as (bl1 & tr1 & H & _).
    exists 32%nat, 0, bl1, tr1. exact H.
Qed.

Lemma apply_returns_iff_legal_target_witness :
  (exists (fuel : nat) (rc : Z) (bl' : backlight_device)
          (tr : list gpio_event),
      apply fuel 33 (bl_at 4) = Some (rc, bl', tr)) <->
  0 <= 33 <= NUM_STEPS.
Proof.
  apply (apply_returns_iff_legal_target 33 (bl_at 4)).
  solve_level.
Defined.

(** X8. Whenever [fan5345_set_level] returns, from any device state, it
    has left every property of the device untouched and the believed
    level equal to the requested brightness; its trace is a shutdown, if
    and only if the brightness is below MIN_STEP, followed by step-down
    pulses only, at most one per allowed iteration. *)
Theorem set_level_postcondition
  (fuel : nat) (bl bl' : backlight_device) (rc : Z) (tr : list gpio_event) :
  fan5345_set_level fuel bl = Some (rc, bl', tr) ->
  props bl' = props bl /\
  cur_level (bl_data bl') = brightness (props bl) /\
  exists n : nat,
    (n <= fuel)%nat /\
    ic_decode tr =
      Some ((if brightness (props bl) <? MIN_STEP then [Shutdown] else [])
            ++ repeat StepDown n).
Proof.
  intros H. apply fan5345_set_level_result in H.
  destruct H as (n & Hn & _ & Htr & Hbl & Hlvl).
  split; [subst bl'; reflexivity|]. split; [exact Hlvl|].
  exists n. split; [exact Hn|]. subst tr. unfold guard_trace.
  destruct (brightness (props bl) <? MIN_STEP).
  - apply ic_decode_shutdown_train.
  - apply ic_decode_pulse_train.
Qed.

Lemma set_level_postcondition_witness :
  props (bl_at 30) = props (with_brightness 30 (bl_at 32)) /\
  cur_level (bl_data (bl_at 30)) =
    brightness (props (with_brightness 30 (bl_at 32))) /\
  exists n : nat,
    (n <= 5)%nat /\
    ic_decode (pulse_train 2) =
      Some ((if brightness (props (with_brightness 30 (bl_at 32))) <? MIN_STEP
             then [Shutdown] else [])
            ++ repeat StepDown n).
Proof.
  apply (set_level_postcondition 5 (with_brightness 30 (bl_at 32)) (bl_at 30)
           0 (pulse_train 2)).
  reflexivity.
Defined.

(** *** Traces: concatenation, line value, blocking time *)

Lemma ic_decode_app_bounded (k : nat) :
  forall (tr1 tr2 : list gpio_event) (c1 : list ic_cmd),
    (List.length tr1 <= k)%nat ->
    ic_decode tr1 = Some c1 ->
    ic_decode (tr1 ++ tr2) =
    match ic_decode tr2 with
    | Some c2 => Some (c1 ++ c2)
    | None => None
    end.
Proof.
  induction k as [|k IH]; intros tr1 tr2 c1 Hlen H.
  - destruct tr1; [|cbn in Hlen; lia].
    cbn in H. inversion H; subst. cbn.
    destruct (ic_decode tr2); reflexivity.
  - destruct tr1 as [|e1 tr1].
    { cbn in H. inversion H; subst. cbn.
      destruct (ic_decode tr2); reflexivity. }
    destruct e1 as [[|]| |]; try discriminate.
    destruct tr1 as [|e2 tr1]; [discriminate|].
    destruct e2 as [v|lo|ms]; try discriminate.
    + destruct tr1 as [|e3 tr1]; [discriminate|].
      destruct e3 as [[|]| |]; try discriminate.
      destruct tr1 as [|e4 tr1]; [discriminate|].
      destruct e4 as [v|hi|ms]; try discriminate.
      cbn [ic_decode app] in *.
      destruct ((500 <=? lo) && (500 <=? hi)); [|discriminate].
      destruct (ic_decode tr1) as [c|] eqn:R; [|discriminate].
      cbn in H. inversion H; subst.
      rewrite (IH tr1 tr2 c) by (exact R || (cbn in Hlen; lia)).
      destruct (ic_decode tr2); reflexivity.
    + cbn [ic_decode app] in *.
      destruct (1 <=? ms); [|discriminate].
      destruct (ic_decode tr1) as [c|] eqn:R; [|discriminate].
      cbn in H. inversion H; subst.
      rewrite (IH tr1 tr2 c) by (exact R || (cbn in Hlen; lia)).
      destruct (ic_decode tr2); reflexivity.
Qed.

Lemma ic_decode_app (tr1 tr2 : list gpio_event) (c1 c2 : list ic_cmd) :
  ic_decode tr1 = Some c1 ->
  ic_decode tr2 = Some c2 ->
  ic_decode (tr1 ++ tr2) = Some (c1 ++ c2).
Proof.
  intros H1 H2.
  rewrite (ic_decode_app_bounded (List.length tr1) tr1 tr2 c1 (le_n _) H1).
  rewrite H2. reflexivity.
Qed.

Lemma replay_app (l : Z) (c1 c2 : list ic_cmd) :
  Spec.replay l (c1 ++ c2) = Spec.replay (Spec.replay l c1) c2.
Proof. unfold Spec.replay. apply fold_left_app. Qed.

Lemma gpio_line_app (b : bool) (t1 t2 : list gpio_event) :
  gpio_line b (t1 ++ t2) = gpio_line (gpio_line b t1) t2.
Proof. unfold gpio_line. apply fold_left_app. Qed.

Lemma gpio_line_pulse_train (n : nat) (b : bool) :
  gpio_line b (pulse_train n) = match n with O => b | S _ => true end.
Proof.
  destruct n as [|n]; [reflexivity|].
  cbn [pulse_train]. rewrite gpio_line_app.
  change (gpio_line b pulse_seq) with true.
  induction n as [|n IH]; [reflexivity|].
  cbn [pulse_train]. rewrite gpio_line_app. exact IH.
Qed.

Lemma busy_ns_app (t1 t2 : list gpio_event) :
  busy_ns (t1 ++ t2) = busy_ns t1 + busy_ns t2.
Proof.
  induction t1 as [|e t1 IH]; [reflexivity|].
  cbn [app busy_ns fold_right]. fold (busy_ns (t1 ++ t2)). fold (busy_ns t1).
  rewrite IH. destruct e; lia.
Qed.

Lemma busy_ns_pulse_train (n : nat) :
  busy_ns (pulse_train n) = 1000 * Z.of_nat n.
Proof.
  induction n as [|n IH]; [reflexivity|].
  cbn [pulse_train]. rewrite busy_ns_app, IH.
  change (busy_ns pulse_seq) with 1000. lia.
Qed.

Lemma fan5345_set_level_line
  (fuel : nat) (bl bl' : backlight_device) (rc : Z) (tr : list gpio_event)
  (line : bool) :
  (line = false <-> cur_level (bl_data bl) = 0) ->
  fan5345_set_level fuel bl = Some (rc, bl', tr) ->
  (gpio_line line tr = false <-> cur_level (bl_data bl') = 0).
Proof.
  intros Hinv H. apply fan5345_set_level_result in H.
  destruct H as (n & _ & _ & Htr & Hbl & Hlvl). subst tr.
  rewrite gpio_line_app, gpio_line_pulse_train.
  assert (cur_level (bl_data bl') =
          iter_level n (cur_level (bl_data (after_guard bl)))) as Hit
    by (subst bl'; reflexivity).
  unfold guard_trace, after_guard in *.
  destruct (Z.ltb_spec (brightness (props bl)) MIN_STEP) as [Hoff|Hlit].
  - cbn [with_cur_level bl_data cur_level] in Hit.
    change (gpio_line line shutdown_seq) with false.
    destruct n as [|n].
    + cbn in Hit. rewrite Hit. tauto.
    + pose proof (iter_level_lit (S n) 0 ltac:(unfold NUM_STEPS; lia)
                    ltac:(lia)) as Hr.
      rewrite Hit. split; [discriminate | lia].
  - change (gpio_line line []) with line. unfold MIN_STEP in Hlit.
    destruct n as [|n].
    + cbn in Hit. rewrite Hit in *. split; [intros E|intros E; lia].
      apply Hinv in E. lia.
    + split; [discriminate | lia].
Qed.

Lemma last_cons_from (rest : list Z) (t d : Z) :
  last (t :: rest) d = last rest t.
Proof.
  destruct rest as [|z rest]; [reflexivity|].
  change (last (t :: z :: rest) d) with (last (z :: rest) d).
  apply last_cons_default.
Qed.

Lemma apply_all_tracks (fuel : nat) (targets : list Z) :
  forall (bl bl' : backlight_device) (u : unit) (tr : list gpio_event)
         (line : bool),
    level_ok bl ->
    (line = false <-> cur_level (bl_data bl) = 0) ->
    apply_all fuel targets bl = Some (u, bl', tr) ->
    level_ok bl' /\
    cur_level (bl_data bl') = last targets (cur_level (bl_data bl)) /\
    Forall (fun t => 0 <= t <= NUM_STEPS) targets /\
    (gpio_line line tr = false <-> cur_level (bl_data bl') = 0) /\
    exists cmds : list ic_cmd,
      ic_decode tr = Some cmds /\
      cur_level (bl_data bl') = Spec.replay (cur_level (bl_data bl)) cmds.
Proof.
  induction targets as [|t rest IH]; intros bl bl' u tr line Hok Hline H.
  - cbn in H. inversion H; subst.
    split; [exact Hok|]. split; [reflexivity|]. split; [constructor|].
    split; [exact Hline|]. exists []. split; reflexivity.
  - cbn [apply_all] in H. unfold bind in H.
    destruct (apply fuel t bl) as [[[rc bl1] tr1]|] eqn:R1; [|discriminate].
    destruct (apply_all fuel rest bl1) as [[[u2 bl2] tr2]|] eqn:R2;
      [|discriminate].
    inversion H; subst; clear H.
    destruct (apply_result_exact fuel t bl bl1 rc tr1 Hok R1)
      as (Ht & _ & Hbl1 & _).
    pose proof R1 as R1'. rewrite apply_unfold in R1'.
    assert (level_ok (with_brightness t bl)) as Hokb by exact Hok.
    destruct (fan5345_set_level_tracks _ _ _ _ _ Hokb R1')
      as (Hok1 & _ & cmds1 & Hdec1 & Hrep1).
    pose proof (fan5345_set_level_line fuel (with_brightness t bl) bl1 rc tr1
                  line Hline R1') as Hline1.
    destruct (IH _ _ _ _ (gpio_line line tr1) Hok1 Hline1 R2)
      as (Hok2 & Hlast & Hall & Hline2 & cmds2 & Hdec2 & Hrep2).
    assert (cur_level (bl_data bl1) = t) as Hl1 by (rewrite Hbl1; reflexivity).
    split; [exact Hok2|].
    split; [rewrite Hlast, Hl1; symmetry; apply last_cons_from|].
    split; [constructor; assumption|].
    split; [rewrite gpio_line_app; exact Hline2|].
    exists (cmds1 ++ cmds2).
    split; [apply ic_decode_app; assumption|].
    rewrite replay_app, Hrep2.
    cbn [with_brightness bl_data] in Hrep1. rewrite Hrep1. reflexivity.
Qed.

(** *** The control line *)

(** X9. The level GPIO is low exactly when the believed level is 0: this
    holds for the device probe registers (the line is requested low), and
    every request that returns preserves it, whatever the target and the
    state it starts from. *)
Theorem line_low_iff_off :
  (forall (fuel : nat) (env : probe_env) (r : probe_result)
          (bl : backlight_device),
      fan5345_probe fuel env = Some r ->
      probe_registered r = Some bl ->
      (gpio_line false (probe_gpio r) = false <->
       cur_level (bl_data bl) = 0)) /\
  (forall (fuel : nat) (target : Z) (bl bl' : backlight_device)
          (rc : Z) (tr : list gpio_event) (line : bool),
      (line = false <-> cur_level (bl_data bl) = 0) ->
      apply fuel target bl = Some (rc, bl', tr) ->
      (gpio_line line tr = false <-> cur_level (bl_data bl') = 0)).
Proof.
  split.
  - intros fuel env r bl. unfold fan5345_probe.
    destruct (devm_kzalloc_ok env); cbn [negb];
      [|intros H; inversion H; subst; discriminate].
    destruct (devm_gpiod_get env);
      [|intros H; inversion H; subst; discriminate].
    destruct (of_property_read_u32 env) as [err d].
    destruct (err =? 0); cbn [negb];
      [|intros H; inversion H; subst; discriminate].
    destruct (devm_backlight_device_register env);
      [|intros H; inversion H; subst; discriminate].
    fold bl_attached.
    destruct (negb _).
    + rewrite probe_default_unfold.
      destruct (fan5345_set_level fuel _) as [[[rc bl1] tr]|] eqn:R;
        [|discriminate].
      intros H Hreg; inversion H; subst; clear H. cbn in Hreg.
      inversion Hreg; subst; clear Hreg.
      cbn [probe_gpio with_power with_state bl_data].
      apply (fan5345_set_level_line fuel _ bl1 rc tr false) in R;
        [exact R | cbn; tauto].
    + intros H Hreg; inversion H; subst; clear H. cbn in Hreg.
      inversion Hreg; subst. cbn. tauto.
  - intros fuel target bl bl' rc tr line Hline H.
    rewrite apply_unfold in H.
    apply (fan5345_set_level_line fuel (with_brightness target bl) bl' rc tr
             line Hline H).
Qed.

Lemma line_low_iff_off_witness :
  (gpio_line false (pulse_train 3) = false <->
   cur_level (bl_data (bl_at 30)) = 0) /\
  (gpio_line true shutdown_seq = false <->
   cur_level (bl_data (bl_at 0)) = 0).
Proof.
  split.
  - apply (proj1 line_low_iff_off 3%nat (env_default 30)
             (mk_probe_result 0 (Some (bl_at 30)) [dev_info msg_init []]
                (pulse_train 3))
             (bl_at 30)); reflexivity.
  - apply (proj2 line_low_iff_off 0%nat 0 (bl_at 30) (bl_at 0) 0
             shutdown_seq true).
    + cbn. split; [discriminate | lia].
    + reflexivity.
Defined.

(** *** Sequences of requests *)

(** X10. When a sequence of requests, made one after the other on a
    device whose believed level is in [0, 32], returns, then every target
    in it was in [0, 32]; the final believed level is the last target
    (the initial level for the empty sequence); the concatenated trace is
    a well-formed sequence of pulses and shutdowns whose replay on the
    specification's tracker, from the initial level, gives the final
    level; and the line is again low exactly when that level is 0. *)
Theorem apply_all_keeps_track
  (fuel : nat) (targets : list Z) (bl bl' : backlight_device)
  (tr : list gpio_event) (line : bool) :
  level_ok bl ->
  (line = false <-> cur_level (bl_data bl) = 0) ->
  apply_all fuel targets bl = Some (tt, bl', tr) ->
  level_ok bl' /\
  cur_level (bl_data bl') = last targets (cur_level (bl_data bl)) /\
  Forall (fun t => 0 <= t <= NUM_STEPS) targets /\
  (gpio_line line tr = false <-> cur_level (bl_data bl') = 0) /\
  exists cmds : list ic_cmd,
    ic_decode tr = Some cmds /\
    cur_level (bl_data bl') = Spec.replay (cur_level (bl_data bl)) cmds.
Proof.
  intros Hok Hline H.
  exact (apply_all_tracks fuel targets bl bl' tt tr line Hok Hline H).
Qed.

Lemma apply_all_keeps_track_witness :
  level_ok (bl_at 31) /\
  cur_level (bl_data (bl_at 31)) =
    last [2; 0; 31] (cur_level (bl_data (bl_at 5))) /\
  Forall (fun t => 0 <= t <= NUM_STEPS) [2; 0; 31] /\
  (gpio_line true (pulse_train 3 ++ shutdown_seq ++ pulse_train 2) = false <->
   cur_level (bl_data (bl_at 31)) = 0) /\
  exists cmds : list ic_cmd,
    ic_decode (pulse_train 3 ++ shutdown_seq ++ pulse_train 2) = Some cmds /\
    cur_level (bl_data (bl_at 31)) =
      Spec.replay (cur_level (bl_data (bl_at 5))) cmds.
Proof.
  apply (apply_all_keeps_track 3 [2; 0; 31] (bl_at 5) (bl_at 31)
           (pulse_train 3 ++ shutdown_seq ++ pulse_train 2) true).
  - solve_level.
  - cbn. split; [discriminate | lia].
  - reflexivity.
Defined.

(** *** Blocking time *)

(** X11. A request that returns on a device whose believed level is in
    [0, 32] has spent, in its delays, exactly 1 ms when the target is
    below MIN_STEP (the shutdown hold, with no pulse), and otherwise
    exactly 1000 ns per step-down pulse, so at most 32000 ns. *)
Theorem apply_blocking_time
  (fuel : nat) (target : Z) (bl bl' : backlight_device)
  (rc : Z) (tr : list gpio_event) :
  level_ok bl ->
  apply fuel target bl = Some (rc, bl', tr) ->
  exists n : nat,
    pulses tr = Some n /\
    (n <= 32)%nat /\
    busy_ns tr =
      (if target <? MIN_STEP then 1000000 else 0) + 1000 * Z.of_nat n /\
    (target < MIN_STEP -> n = 0%nat) /\
    (MIN_STEP <= target -> busy_ns tr <= 32000).
Proof.
  intros Hok H.
  destruct (apply_result_exact fuel target bl bl' rc tr Hok H)
    as (Ht & _ & _ & Htr).
  unfold guard_trace, after_guard in Htr.
  cbn [with_brightness props brightness] in Htr.
  destruct (Z.ltb_spec target MIN_STEP) as [Hoff|Hlit]; unfold MIN_STEP in *.
  - assert (target = 0) as E by lia. subst target.
    cbn [with_cur_level bl_data cur_level] in Htr.
    change (Z.to_nat (pulses_needed 0 0)) with 0%nat in Htr. subst tr.
    exists 0%nat. rewrite pulses_shutdown_train.
    repeat split; try reflexivity; try lia.
  - cbn [with_brightness bl_data app] in Htr.
    pose proof (pulses_needed_bound (cur_level (bl_data bl)) target Hok
                  ltac:(unfold NUM_STEPS in *; lia)) as Hb.
    unfold NUM_STEPS in Hb. subst tr.
    exists (Z.to_nat (pulses_needed (cur_level (bl_data bl)) target)).
    rewrite pulses_pulse_train, busy_ns_pulse_train.
    repeat split; try reflexivity; try lia.
Qed.

Lemma apply_blocking_time_witness :
  exists n : nat,
    pulses (pulse_train 5) = Some n /\
    (n <= 32)%nat /\
    busy_ns (pulse_train 5) =
      (if 32 <? MIN_STEP then 1000000 else 0) + 1000 * Z.of_nat n /\
    (32 < MIN_STEP -> n = 0%nat) /\
    (MIN_STEP <= 32 -> busy_ns (pulse_train 5) <= 32000).
Proof.
  apply (apply_blocking_time 5 32 (bl_at 5) (bl_at 32) 0 (pulse_train 5)).
  - solve_level.
  - reflexivity.
Defined.

(** *** From attach to detach *)

Lemma fan5345_probe_success_registers
  (fuel : nat) (env : probe_env) (r : probe_result) :
  devm_kzalloc_ok env = true ->
  devm_gpiod_get env = ValidPtr ->
  fst (of_property_read_u32 env) = 0 ->
  devm_backlight_device_register env = ValidPtr ->
  fan5345_probe fuel env = Some r ->
  exists bl : backlight_device, probe_registered r = Some bl.
Proof.
  intros Hk Hg Hof Hreg. unfold fan5345_probe.
  rewrite Hk, Hg, Hreg. cbn [negb].
  destruct (of_property_read_u32 env) as [err d]. cbn [fst] in Hof.
  subst err. cbn [Z.eqb negb].
  destruct (negb _).
  - destruct (probe_default fuel _ _) as [[[e bl'] tr]|]; [|discriminate].
    intros H; inversion H; subst. eexists; reflexivity.
  - intros H; inversion H; subst. eexists; reflexivity.
Qed.

(** X12. When every host call of probe succeeds, the configured default
    level is any [u32] value and every later request is for a level in
    [0, 32], the whole life of the device (probe, the requests in order,
    remove) returns once each loop is allowed 32 iterations; it ends with
    believed level 0, requested brightness 0 and the line low, and the
    complete GPIO trace is a well-formed sequence of pulses and shutdowns
    that ends with a shutdown. *)
Theorem lifecycle_ends_off (env : probe_env) (targets : list Z) :
  devm_kzalloc_ok env = true ->
  devm_gpiod_get env = ValidPtr ->
  fst (of_property_read_u32 env) = 0 ->
  0 <= snd (of_property_read_u32 env) <= uint_max ->
  devm_backlight_device_register env = ValidPtr ->
  Forall (fun t => 0 <= t <= NUM_STEPS) targets ->
  exists (bl' : backlight_device) (tr : list gpio_event)
         (cmds : list ic_cmd),
    lifecycle 32 env targets = Some (inr (bl', tr)) /\
    cur_level (bl_data bl') = 0 /\
    fan5345_get_level bl' = 0 /\
    gpio_line false tr = false /\
    ic_decode tr = Some (cmds ++ [Shutdown]).
Proof.
  intros Hk Hg Hof Hd Hreg Hall.
  destruct (fan5345_probe_returns env Hd) as (r & Hr).
  destruct (fan5345_probe_success_registers 32 env r Hk Hg Hof Hreg Hr)
    as (bl & Hbl).
  destruct (fan5345_probe_tracks 32 env r bl Hr Hbl)
    as (Hok & cmds0 & Hdec0 & _).
  destruct (apply_all_returns targets bl Hok Hall) as (bl1 & tr1 & H1).
  assert (exists cmds1 : list ic_cmd, ic_decode tr1 = Some cmds1)
    as (cmds1 & Hdec1).
  { destruct (apply_all_tracks 32 targets bl bl1 tt tr1
                (negb (cur_level (bl_data bl) =? 0)) Hok) as (_ & _ & _ & _ & c & Hc & _).
    - destruct (Z.eqb_spec (cur_level (bl_data bl)) 0); cbn;
        split; congruence.
    - exact H1.
    - exists c. exact Hc. }
  exists (with_cur_level 0 (with_brightness 0 (with_power 0 bl1))),
    (probe_gpio r ++ tr1 ++ shutdown_seq), (cmds0 ++ cmds1).
  split; [|split; [reflexivity|split; [reflexivity|split]]].
  - unfold lifecycle. rewrite Hr, Hbl. unfold bind.
    rewrite H1, fan5345_remove_run. reflexivity.
  - rewrite !gpio_line_app. reflexivity.
  - rewrite <- app_assoc.
    apply ic_decode_app; [exact Hdec0|].
    apply ic_decode_app; [exact Hdec1 | reflexivity].
Qed.

Lemma lifecycle_ends_off_witness :
  exists (bl' : backlight_device) (tr : list gpio_event)
         (cmds : list ic_cmd),
    lifecycle 32 (env_default 40) [7; 0; 32] = Some (inr (bl', tr)) /\
    cur_level (bl_data bl') = 0 /\
    fan5345_get_level bl' = 0 /\
    gpio_line false tr = false /\
    ic_decode tr = Some (cmds ++ [Shutdown]).
Proof.
  apply (lifecycle_ends_off (env_default 40) [7; 0; 32]);
    try reflexivity.
  - unfold uint_max; cbn; lia.
  - repeat constructor; unfold NUM_STEPS; lia.
Defined.
